(** * operator-marketplace: the default-CatalogSource controller and the
    leader-election callbacks of the manager binary.

    A shallow embedding of
    - [pkg/controller/catalogsource/catalogsource_controller.go]
      (the event predicate built by [add], [Reconcile] and
      [createNewCatsrcInstance]), and
    - the callbacks [cmd/manager/main.go] hands to the leader election,
    together with the properties of them that the specification states.

    The Kubernetes client, the logger, the registry of default definitions
    and the OperatorHub singleton are collaborators of the controller: the
    client is an interface ([client.Client]) whose every implementation is
    quantified over, and every call made through it and every log line is
    recorded in the trace of the computation. *)

From Stdlib Require Import ZArith.
From stdpp Require Import base option list strings gmap.

Local Open Scope Z_scope.
Local Open Scope string_scope.
Local Open Scope list_scope.

(** ** Go and Kubernetes vocabulary used by the controller *)

(** A Go type has a zero value; indexing a map at a missing key yields it. *)
Class GoZero (A : Type) := zero_value : A.
Global Hint Mode GoZero ! : typeclass_instances.

Global Instance string_zero : GoZero string := "".
Global Instance bool_zero : GoZero bool := false.

(** [m[k]] on a Go map. *)
Definition go_index `{Countable K} `{GoZero V} (m : gmap K V) (k : K) : V :=
  default zero_value (m !! k).

(** The [error] interface, with the one classification of
    [k8s.io/apimachinery/pkg/api/errors] that the controller asks for. *)
Class GoError (error : Type) := {
  Error : error -> string;
  IsNotFound : error -> bool
}.

Module time.

(** [time.Duration] counts nanoseconds. *)
Definition Duration := Z.

Definition Second : Duration := 1000000000.

End time.

Module metav1.

(** The fields of [metav1.ObjectMeta] the controller reads. *)
Record ObjectMeta := {
  Name : string;
  Namespace : string;
  DeletionTimestamp : option Z
}.

Definition GetName (m : ObjectMeta) : string := Name m.

Global Instance ObjectMeta_zero : GoZero ObjectMeta :=
  {| Name := ""; Namespace := ""; DeletionTimestamp := None |}.

End metav1.

Module types.

Record NamespacedName := {
  Namespace : string;
  Name : string
}.

End types.

Module olm.
Section CatalogSource.

(** [olm.CatalogSourceSpec] is declared outside the controller and is kept
    abstract: any type, with the zero value and the equality test that the
    users of [CatalogSource] ask for. *)
Context {CatalogSourceSpec : Type}.

Record CatalogSource := {
  ObjectMeta : metav1.ObjectMeta;
  Spec : CatalogSourceSpec
}.

Definition GetName (c : CatalogSource) : string :=
  metav1.GetName (ObjectMeta c).

Definition DeletionTimestamp (c : CatalogSource) : option Z :=
  metav1.DeletionTimestamp (ObjectMeta c).

Global Instance CatalogSource_zero `{GoZero CatalogSourceSpec} :
  GoZero CatalogSource :=
  {| ObjectMeta := zero_value; Spec := zero_value |}.

End CatalogSource.
Global Arguments CatalogSource : clear implicits.
End olm.

Module defaults.
Section Defaults.
Context {CatalogSourceSpec : Type} `{EqDecision CatalogSourceSpec}.

(** Modelled from the spec: [defaults.AreCatsrcSpecsEqual] is not among the
    sources; the specification says that the observed and the desired
    specification are compared structurally. *)
Definition AreCatsrcSpecsEqual (spec1 spec2 : CatalogSourceSpec) : bool :=
  bool_decide (spec1 = spec2).

End Defaults.
End defaults.

Module reconcile.

Record Request := {
  NamespacedName : types.NamespacedName
}.

Definition Name (r : Request) : string := types.Name (NamespacedName r).

Record Result := {
  Requeue : bool;
  RequeueAfter : time.Duration
}.

(** [reconcile.Result{}] *)
Global Instance Result_zero : GoZero Result :=
  {| Requeue := false; RequeueAfter := 0 |}.

End reconcile.

Module logrus.

Inductive Level := InfoLevel | WarnLevel | ErrorLevel | FatalLevel.

Definition Entry : Type := Level * string.

End logrus.

(** ** Effects: client calls and log lines *)

Module effect.
Section Effect.
Context {CatalogSourceSpec : Type}.

(** What a computation did, in order. *)
Inductive Effect :=
| ClientGet (key : types.NamespacedName)
| ClientCreate (obj : olm.CatalogSource CatalogSourceSpec)
| ClientDelete (obj : olm.CatalogSource CatalogSourceSpec)
| ClientUpdate (obj : olm.CatalogSource CatalogSourceSpec)
| Log (entry : logrus.Entry).

Definition is_create (e : Effect) : bool :=
  match e with ClientCreate _ => true | _ => false end.

Definition is_delete (e : Effect) : bool :=
  match e with ClientDelete _ => true | _ => false end.

Definition is_update (e : Effect) : bool :=
  match e with ClientUpdate _ => true | _ => false end.

Definition is_client_call (e : Effect) : bool :=
  match e with Log _ => false | _ => true end.

(** A call that asks the store to change: everything but [Get]. *)
Definition is_mutation (e : Effect) : bool :=
  is_create e || is_delete e || is_update e.

Definition creates (t : list Effect) : list Effect := List.filter is_create t.

Definition deletes (t : list Effect) : list Effect := List.filter is_delete t.

Definition updates (t : list Effect) : list Effect := List.filter is_update t.

Definition client_calls (t : list Effect) : list Effect :=
  List.filter is_client_call t.

Definition mutations (t : list Effect) : list Effect :=
  List.filter is_mutation t.

End Effect.
Global Arguments Effect : clear implicits.

(** A computation over the state [S] of the cluster (everything that decides
    how the API server answers): it returns a value, the next state and the
    trace of what it did. *)
Definition M (Sp S A : Type) : Type := S -> A * S * list (Effect Sp).

Definition ret {Sp S A} (a : A) : M Sp S A := fun s => (a, s, []).

Definition bind {Sp S A B} (m : M Sp S A) (k : A -> M Sp S B) : M Sp S B :=
  fun s =>
    let '(a, s1, t1) := m s in
    let '(b, s2, t2) := k a s1 in
    (b, s2, t1 ++ t2).

Definition emit {Sp S} (e : Effect Sp) : M Sp S unit := fun s => (tt, s, [e]).

Definition value {Sp S A} (r : A * S * list (Effect Sp)) : A := r.1.1.

Definition final {Sp S A} (r : A * S * list (Effect Sp)) : S := r.1.2.

Definition trace {Sp S A} (r : A * S * list (Effect Sp)) : list (Effect Sp) := r.2.

End effect.

Declare Scope go_scope.
Delimit Scope go_scope with go.
Notation "x <- m ;; k" := (effect.bind m (fun x => k))
  (at level 100, m at next level, right associativity) : go_scope.
Notation "m ;; k" := (effect.bind m (fun _ => k))
  (at level 100, right associativity) : go_scope.

Module log.

Definition Infof {Sp S} (msg : string) : effect.M Sp S unit :=
  effect.emit (effect.Log (logrus.InfoLevel, msg)).

Definition Warnf {Sp S} (msg : string) : effect.M Sp S unit :=
  effect.emit (effect.Log (logrus.WarnLevel, msg)).

End log.

Module client.
Section Client.
Context {CatalogSourceSpec error : Type}.

(** [client.Client], restricted to CatalogSource objects: how the cluster in
    state [S] answers each call and what state it is in afterwards.  [Get]
    yields the error, or the object it filled in. *)
Record Client (S : Type) := {
  Get : types.NamespacedName -> S ->
        (error + olm.CatalogSource CatalogSourceSpec) * S;
  Create : olm.CatalogSource CatalogSourceSpec -> S -> option error * S;
  Delete : olm.CatalogSource CatalogSourceSpec -> S -> option error * S;
  Update : olm.CatalogSource CatalogSourceSpec -> S -> option error * S
}.
Global Arguments Get {S} _ _ _.
Global Arguments Create {S} _ _ _.
Global Arguments Delete {S} _ _ _.
Global Arguments Update {S} _ _ _.

Context {S : Type} (c : Client S).

(** The calls as the controller makes them: each one is recorded. *)
Definition get (key : types.NamespacedName) :
  effect.M CatalogSourceSpec S (error + olm.CatalogSource CatalogSourceSpec) :=
  fun s => let '(r, s1) := Get c key s in (r, s1, [effect.ClientGet key]).

Definition create (obj : olm.CatalogSource CatalogSourceSpec) :
  effect.M CatalogSourceSpec S (option error) :=
  fun s => let '(r, s1) := Create c obj s in (r, s1, [effect.ClientCreate obj]).

Definition delete (obj : olm.CatalogSource CatalogSourceSpec) :
  effect.M CatalogSourceSpec S (option error) :=
  fun s => let '(r, s1) := Delete c obj s in (r, s1, [effect.ClientDelete obj]).

Definition update (obj : olm.CatalogSource CatalogSourceSpec) :
  effect.M CatalogSourceSpec S (option error) :=
  fun s => let '(r, s1) := Update c obj s in (r, s1, [effect.ClientUpdate obj]).

End Client.
Global Arguments Client : clear implicits.
End client.

(** ** Watch events and predicates (controller-runtime) *)

Module event.
Section Event.
Context {CatalogSourceSpec : Type}.

Record CreateEvent := {
  CreateMeta : metav1.ObjectMeta;
  CreateObject : olm.CatalogSource CatalogSourceSpec
}.

Record UpdateEvent := {
  MetaOld : metav1.ObjectMeta;
  ObjectOld : olm.CatalogSource CatalogSourceSpec;
  MetaNew : metav1.ObjectMeta;
  ObjectNew : olm.CatalogSource CatalogSourceSpec
}.

Record DeleteEvent := {
  DeleteMeta : metav1.ObjectMeta;
  DeleteObject : olm.CatalogSource CatalogSourceSpec;
  DeleteStateUnknown : bool
}.

Record GenericEvent := {
  GenericMeta : metav1.ObjectMeta;
  GenericObject : olm.CatalogSource CatalogSourceSpec
}.

End Event.
Global Arguments CreateEvent : clear implicits.
Global Arguments UpdateEvent : clear implicits.
Global Arguments DeleteEvent : clear implicits.
Global Arguments GenericEvent : clear implicits.
End event.

Module predicate.

(** [predicate.Funcs]: one filter per kind of event; an event is handed to
    the handler (which enqueues a request) only when its filter says true. *)
Record Funcs (Sp : Type) := {
  CreateFunc : event.CreateEvent Sp -> bool;
  UpdateFunc : event.UpdateEvent Sp -> bool;
  DeleteFunc : event.DeleteEvent Sp -> bool;
  GenericFunc : event.GenericEvent Sp -> bool
}.
Global Arguments CreateFunc {Sp} _ _.
Global Arguments UpdateFunc {Sp} _ _.
Global Arguments DeleteFunc {Sp} _ _.
Global Arguments GenericFunc {Sp} _ _.

End predicate.

(** ** The CatalogSource controller *)

Module catalogsource.
Section Controller.
Context {CatalogSourceSpec : Type}.
Context `{EqDecision CatalogSourceSpec} `{GoZero CatalogSourceSpec}.
Context {error : Type} `{GoError error}.
Context {S : Type}.

(** The process-wide values the controller reads:
    the second result of [defaults.GetGlobalDefinitions()], the default
    CatalogSource definitions by name, and the map returned by
    [operatorhub.GetSingleton().Get()]. *)
Variable defaultCatalogsources : gmap string (olm.CatalogSource CatalogSourceSpec).
Variable operatorhubConfig : gmap string bool.

(** The predicate [add] registers with the watch on CatalogSources. *)
Definition pred : predicate.Funcs CatalogSourceSpec := {|
  predicate.CreateFunc := fun e => false;
  predicate.UpdateFunc := fun e =>
    match defaultCatalogsources !! metav1.GetName (event.MetaOld e) with
    | Some _ => true
    | None => false
    end;
  predicate.DeleteFunc := fun e =>
    match defaultCatalogsources !! metav1.GetName (event.DeleteMeta e) with
    | Some _ =>
        (* If DeleteStateUnknown is true it implies that the Delete event
           was missed and we can ignore it. *)
        if event.DeleteStateUnknown e then false else true
    | None => false
    end;
  predicate.GenericFunc := fun e =>
    match defaultCatalogsources !! metav1.GetName (event.GenericMeta e) with
    | Some _ => true
    | None => false
    end
|}.

(** [ReconcileCatalogSource] reconciles a CatalogSource object. *)
Record ReconcileCatalogSource := {
  client : client.Client CatalogSourceSpec error S
}.

Definition createNewCatsrcInstance
  (client : client.Client CatalogSourceSpec error S)
  (catsrc : olm.CatalogSource CatalogSourceSpec) :
  effect.M CatalogSourceSpec S (option error) :=
  (err <- client.create client catsrc ;;
   match err with
   | Some e =>
       log.Warnf ("Could not recreate default CatalogSource " +:+
                  olm.GetName catsrc +:+ ". Error: " +:+ Error e) ;;
       effect.ret (Some e)
   | None => effect.ret None
   end)%go.

(** [reconcile.Result{Requeue: true, RequeueAfter: time.Second * 5}] *)
Definition requeue_after_5s : reconcile.Result :=
  {| reconcile.Requeue := true;
     reconcile.RequeueAfter := time.Second * 5 |}.

Definition Reconcile (r : ReconcileCatalogSource) (request : reconcile.Request) :
  effect.M CatalogSourceSpec S (reconcile.Result * option error) :=
  (log.Infof ("Reconciling default CatalogSource " +:+ reconcile.Name request) ;;
   let defaultCatsrcDef := go_index defaultCatalogsources (reconcile.Name request) in
   (* Fetch the CatalogSource instance *)
   got <- client.get (client r) (reconcile.NamespacedName request) ;;
   match got with
   | inl err =>
       if IsNotFound err then
         (if negb (go_index operatorhubConfig (olm.GetName defaultCatsrcDef))
          then createNewCatsrcInstance (client r) defaultCatsrcDef ;; effect.ret tt
          else effect.ret tt) ;;
         effect.ret (zero_value, None)
       else
         (* Error reading the object - requeue the request. *)
         effect.ret (requeue_after_5s, Some err)
   | inr instance =>
       match olm.DeletionTimestamp instance with
       | Some _ => effect.ret (requeue_after_5s, None)
       | None =>
           if negb (defaults.AreCatsrcSpecsEqual
                      (olm.Spec defaultCatsrcDef) (olm.Spec instance))
           then
             err <- client.delete (client r) instance ;;
             match err with
             | Some e =>
                 log.Warnf ("Could not set default CatalogSource " +:+
                            olm.GetName defaultCatsrcDef +:+
                            "'s spec back to desired default state. Error in deleting updated CatalogSource: " +:+
                            Error e)
             | None => effect.ret tt
             end ;;
             effect.ret (requeue_after_5s, None)
           else effect.ret (zero_value, None)
       end
   end)%go.

(** Two invocations for the same request, one right after the other. *)
Definition Reconcile_twice (r : ReconcileCatalogSource) (request : reconcile.Request) :
  effect.M CatalogSourceSpec S
    ((reconcile.Result * option error) * (reconcile.Result * option error)) :=
  (r1 <- Reconcile r request ;;
   r2 <- Reconcile r request ;;
   effect.ret (r1, r2))%go.

End Controller.
Global Arguments ReconcileCatalogSource : clear implicits.
End catalogsource.

(** ** The manager binary: what runs under the leader election *)

Module main.
Section Manager.
Context {error : Type} `{GoError error}.

(** The contexts [main] creates or is handed. *)
Inductive Context_ :=
| signalsCtx    (* [ctx := signals.Context()], whose [Done()] is [stopCh] *)
| leaderCtx     (* [context.WithCancel(context.Background())] *)
| electionCtx.  (* the context the election passes to [OnStartedLeading] *)

(** The state of the process that the callbacks act on.  [mgr.Start(stopCh)]
    starts the controllers and blocks until [stopCh] is closed. *)
Record Process := {
  stopCh_closed : bool;      (* the shutdown signal has arrived *)
  leaderCtx_cancelled : bool; (* [leaderCancel()] has been called *)
  mgr_started : bool;        (* [mgr.Start(stopCh)] has been entered *)
  exited : bool;             (* [logger.Fatal] has ended the process *)
  output : list logrus.Entry
}.

Definition started : Process :=
  {| stopCh_closed := false; leaderCtx_cancelled := false;
     mgr_started := false; exited := false; output := [] |}.

(** The manager dispatches reconciliations from the moment [mgr.Start] is
    entered until the channel it was started with is closed (or the process
    ends). *)
Definition manager_running (p : Process) : bool :=
  mgr_started p && negb (stopCh_closed p) && negb (exited p).

Definition logger_log (l : logrus.Level) (msg : string) (p : Process) : Process :=
  {| stopCh_closed := stopCh_closed p;
     leaderCtx_cancelled := leaderCtx_cancelled p;
     mgr_started := mgr_started p;
     exited := exited p;
     output := output p ++ [(l, msg)] |}.

Definition logger_Info := logger_log logrus.InfoLevel.

Definition logger_Warnf := logger_log logrus.WarnLevel.

(** [logger.Fatal] logs and exits. *)
Definition logger_Fatal (msg : string) (p : Process) : Process :=
  let p := logger_log logrus.FatalLevel msg p in
  {| stopCh_closed := stopCh_closed p;
     leaderCtx_cancelled := leaderCtx_cancelled p;
     mgr_started := mgr_started p;
     exited := true;
     output := output p |}.

(** [mgr.Start(stopCh)], up to the point where it blocks. *)
Definition mgr_Start (p : Process) : Process :=
  {| stopCh_closed := stopCh_closed p;
     leaderCtx_cancelled := leaderCtx_cancelled p;
     mgr_started := true;
     exited := exited p;
     output := output p |}.

(** How the collaborators that [run] sets up answer. *)
Record Setup := {
  clusterOperatorName : string;
  NewReporter_err : option error;
  PopulateGlobals_err : option error;
  AddToManager_err : option error;
  ensureDefaults_err : option error
}.

(** [run], from its first statement to the call of [mgr.Start(stopCh)]; the
    statements after that call run once the manager has returned.  The
    parameter [ctx] is not read by the body. *)
Definition run (setup : Setup) (ctx : Context_) (p : Process) : Process :=
  let p := logger_Info "registering components" p in
  match (if bool_decide (clusterOperatorName setup <> "")
         then NewReporter_err setup else None) with
  | Some e => logger_Fatal (Error e) p
  | None =>
      (* Populate the global default OperatorSources definition and config *)
      match PopulateGlobals_err setup with
      | Some e => logger_Fatal (Error e) p
      | None =>
          let p := logger_Info "setting up controllers" p in
          match AddToManager_err setup with
          | Some e => logger_Fatal (Error e) p
          | None =>
              match ensureDefaults_err setup with
              | Some e =>
                  logger_Fatal
                    ("failed to setup the default catalogsource manifests: " +:+ Error e) p
              | None =>
                  let p := logger_Info "starting manager" p in
                  mgr_Start p
              end
          end
      end
  end.

(** The callbacks given to [leaderelection.RunOrDie]. *)
Definition OnStartedLeading (setup : Setup) (id : string)
  (ctx : Context_) (p : Process) : Process :=
  let p := logger_Info ("became leader: " +:+ id) p in
  run setup leaderCtx p.

Definition OnStoppedLeading (id : string) (p : Process) : Process :=
  logger_Warnf ("leader election lost for " +:+ id +:+ " identity") p.

Definition OnNewLeader (id identity : string) (p : Process) : Process :=
  if bool_decide (identity = id) then p
  else logger_Info ("new leader has been elected: " +:+ identity) p.

End Manager.
Global Arguments Process : clear implicits.
Global Arguments Setup : clear implicits.
End main.

(** ** A store to run the controller against

    An in-memory stand-in for the API server, as a unit test of the
    controller would inject: objects by namespace and name, and a switch
    that makes the next writes fail. *)

Module fake.

Inductive StatusError :=
| NotFound (name : string)
| AlreadyExists (name : string)
| ServerTimeout.

Global Instance StatusError_GoError : GoError StatusError := {|
  Error e :=
    match e with
    | NotFound n => n +:+ " not found"
    | AlreadyExists n => n +:+ " already exists"
    | ServerTimeout => "the server was unable to return a response in time"
    end;
  IsNotFound e := match e with NotFound _ => true | _ => false end
|}.

(** The specification of a catalog: here the image it is served from. *)
Definition Image := string.

Record Cluster := {
  objects : gmap (string * string) (olm.CatalogSource Image);
  reads_fail : bool;
  writes_fail : bool
}.

Definition key_of (k : types.NamespacedName) : string * string :=
  (types.Namespace k, types.Name k).

Definition object_key (o : olm.CatalogSource Image) : string * string :=
  (metav1.Namespace (olm.ObjectMeta o), metav1.Name (olm.ObjectMeta o)).

Definition with_objects (m : gmap (string * string) (olm.CatalogSource Image))
  (s : Cluster) : Cluster :=
  {| objects := m; reads_fail := reads_fail s; writes_fail := writes_fail s |}.

Definition Client : client.Client Image StatusError Cluster := {|
  client.Get k s :=
    if reads_fail s then (inl ServerTimeout, s)
    else match objects s !! key_of k with
         | Some o => (inr o, s)
         | None => (inl (NotFound (types.Name k)), s)
         end;
  client.Create o s :=
    if writes_fail s then (Some ServerTimeout, s)
    else match objects s !! object_key o with
         | Some _ => (Some (AlreadyExists (olm.GetName o)), s)
         | None => (None, with_objects (<[object_key o := o]> (objects s)) s)
         end;
  client.Delete o s :=
    if writes_fail s then (Some ServerTimeout, s)
    else match objects s !! object_key o with
         | Some _ => (None, with_objects (delete (object_key o) (objects s)) s)
         | None => (Some (NotFound (olm.GetName o)), s)
         end;
  client.Update o s :=
    if writes_fail s then (Some ServerTimeout, s)
    else match objects s !! object_key o with
         | Some _ => (None, with_objects (<[object_key o := o]> (objects s)) s)
         | None => (Some (NotFound (olm.GetName o)), s)
         end
|}.

Definition reconciler : catalogsource.ReconcileCatalogSource Image StatusError Cluster :=
  {| catalogsource.client := Client |}.

Definition meta (name : string) (deleting : option Z) : metav1.ObjectMeta :=
  {| metav1.Name := name;
     metav1.Namespace := "openshift-marketplace";
     metav1.DeletionTimestamp := deleting |}.

Definition catsrc (name : string) (deleting : option Z) (image : Image) :
  olm.CatalogSource Image :=
  {| olm.ObjectMeta := meta name deleting; olm.Spec := image |}.

(** The default definition, and three states of the object in the cluster. *)
Definition desired := catsrc "redhat-operators" None "registry.redhat.io/redhat/redhat-operator-index:v4.6".

Definition drifted := catsrc "redhat-operators" None "quay.io/someone/edited-index:latest".

Definition terminating := catsrc "redhat-operators" (Some 1604188800) "registry.redhat.io/redhat/redhat-operator-index:v4.6".

(** An object that is not one of the defaults. *)
Definition custom := catsrc "my-catalog" None "quay.io/someone/my-catalog:v1".

Definition registry : gmap string (olm.CatalogSource Image) :=
  {[ "redhat-operators" := desired ]}.

Definition nothing_disabled : gmap string bool := ∅.

Definition cluster_with (os : list (olm.CatalogSource Image)) (wf : bool) : Cluster :=
  {| objects := list_to_map ((fun o => (object_key o, o)) <$> os);
     reads_fail := false; writes_fail := wf |}.

Definition request (name : string) : reconcile.Request :=
  {| reconcile.NamespacedName :=
       {| types.Namespace := "openshift-marketplace"; types.Name := name |} |}.

(** Events as the watch delivers them. *)
Definition created (o : olm.CatalogSource Image) : event.CreateEvent Image :=
  {| event.CreateMeta := olm.ObjectMeta o; event.CreateObject := o |}.

Definition updated (old new : olm.CatalogSource Image) : event.UpdateEvent Image :=
  {| event.MetaOld := olm.ObjectMeta old; event.ObjectOld := old;
     event.MetaNew := olm.ObjectMeta new; event.ObjectNew := new |}.

Definition deleted (o : olm.CatalogSource Image) (unknown : bool) :
  event.DeleteEvent Image :=
  {| event.DeleteMeta := olm.ObjectMeta o; event.DeleteObject := o;
     event.DeleteStateUnknown := unknown |}.

Definition resynced (o : olm.CatalogSource Image) : event.GenericEvent Image :=
  {| event.GenericMeta := olm.ObjectMeta o; event.GenericObject := o |}.

Definition setup : main.Setup StatusError :=
  {| main.clusterOperatorName := "";
     main.NewReporter_err := None;
     main.PopulateGlobals_err := None;
     main.AddToManager_err := None;
     main.ensureDefaults_err := None |}.

End fake.

(** ** Vocabulary of the statements about [Reconcile] *)

Module reconciling.
Section Terms.
Context {CatalogSourceSpec : Type} `{GoZero CatalogSourceSpec}.
Context {error : Type} `{GoError error}.
Context {S : Type}.
Variable defaultCatalogsources : gmap string (olm.CatalogSource CatalogSourceSpec).
Variable operatorhubConfig : gmap string bool.
Variable r : catalogsource.ReconcileCatalogSource CatalogSourceSpec error S.
Variable request : reconcile.Request.

(** The definition [Reconcile] works with ([defaultCatsrcDef]): the
    registry's, or the zero value when the registry has none under the
    requested name. *)
Definition desired : olm.CatalogSource CatalogSourceSpec :=
  go_index defaultCatalogsources (reconcile.Name request).

Definition key : types.NamespacedName := reconcile.NamespacedName request.

(** How the cluster in state [s] answers the fetch of [Reconcile]. *)
Definition fetch (s : S) : (error + olm.CatalogSource CatalogSourceSpec) * S :=
  client.Get (catalogsource.client r) key s.

(** The log lines of [Reconcile] and [createNewCatsrcInstance]. *)
Definition entering : effect.Effect CatalogSourceSpec :=
  effect.Log (logrus.InfoLevel,
              "Reconciling default CatalogSource " +:+ reconcile.Name request).

Definition create_failed (e : error) : effect.Effect CatalogSourceSpec :=
  effect.Log (logrus.WarnLevel,
              "Could not recreate default CatalogSource " +:+
              olm.GetName desired +:+ ". Error: " +:+ Error e).

Definition delete_failed (e : error) : effect.Effect CatalogSourceSpec :=
  effect.Log (logrus.WarnLevel,
              "Could not set default CatalogSource " +:+ olm.GetName desired +:+
              "'s spec back to desired default state. Error in deleting updated CatalogSource: " +:+
              Error e).

Definition warning (mk : error -> effect.Effect CatalogSourceSpec)
  (err : option error) : list (effect.Effect CatalogSourceSpec) :=
  match err with Some e => [mk e] | None => [] end.

(** The six ways through [Reconcile] from the cluster state [s]: what
    decides each, and the result, the next state and the trace it gives. *)
Inductive outcome (s : S) :
  (reconcile.Result * option error) * S * list (effect.Effect CatalogSourceSpec) -> Prop :=
| fetch_failed e s1 :
    fetch s = (inl e, s1) -> IsNotFound e = false ->
    outcome s ((catalogsource.requeue_after_5s, Some e), s1,
               [entering; effect.ClientGet key])
| absent_and_known e s1 :
    fetch s = (inl e, s1) -> IsNotFound e = true ->
    go_index operatorhubConfig (olm.GetName desired) = true ->
    outcome s ((zero_value, None), s1, [entering; effect.ClientGet key])
| absent_and_created e s1 cerr s2 :
    fetch s = (inl e, s1) -> IsNotFound e = true ->
    go_index operatorhubConfig (olm.GetName desired) = false ->
    client.Create (catalogsource.client r) desired s1 = (cerr, s2) ->
    outcome s ((zero_value, None), s2,
               [entering; effect.ClientGet key; effect.ClientCreate desired]
                 ++ warning create_failed cerr)
| being_deleted inst s1 t :
    fetch s = (inr inst, s1) -> olm.DeletionTimestamp inst = Some t ->
    outcome s ((catalogsource.requeue_after_5s, None), s1,
               [entering; effect.ClientGet key])
| drifted inst s1 derr s2 :
    fetch s = (inr inst, s1) -> olm.DeletionTimestamp inst = None ->
    olm.Spec inst <> olm.Spec desired ->
    client.Delete (catalogsource.client r) inst s1 = (derr, s2) ->
    outcome s ((catalogsource.requeue_after_5s, None), s2,
               [entering; effect.ClientGet key; effect.ClientDelete inst]
                 ++ warning delete_failed derr)
| in_sync inst s1 :
    fetch s = (inr inst, s1) -> olm.DeletionTimestamp inst = None ->
    olm.Spec inst = olm.Spec desired ->
    outcome s ((zero_value, None), s1, [entering; effect.ClientGet key]).

End Terms.
End reconciling.

Ltac run_Reconcile :=
  cbv [catalogsource.Reconcile catalogsource.createNewCatsrcInstance
       effect.bind effect.ret effect.emit log.Infof log.Warnf
       client.get client.create client.delete
       reconciling.fetch reconciling.key reconciling.desired] in *.

Ltac trace_filters :=
  cbv [effect.trace effect.value effect.final effect.client_calls
       effect.mutations effect.creates effect.deletes effect.updates
       reconciling.warning reconciling.entering
       reconciling.create_failed reconciling.delete_failed
       effect.is_client_call effect.is_mutation effect.is_create
       effect.is_delete effect.is_update
       List.filter app orb fst snd].

(** Two equations for the same call: keep one, equate what they return. *)
Ltac agree :=
  repeat match goal with
         | H1 : ?call = _, H2 : ?call = _ |- _ => rewrite H1 in H2; simplify_eq
         end;
  try congruence.

(** ** More vocabulary: warnings in a trace, and a marked default *)

Module tracing.
Section Tracing.
Context {CatalogSourceSpec : Type}.

Definition is_warning (e : effect.Effect CatalogSourceSpec) : bool :=
  match e with
  | effect.Log (logrus.WarnLevel, _) => true
  | _ => false
  end.

Definition warnings (t : list (effect.Effect CatalogSourceSpec)) :
  list (effect.Effect CatalogSourceSpec) :=
  List.filter is_warning t.

End Tracing.
End tracing.

Module fake_hub.

(** The OperatorHub configuration marks the default source. *)
Definition default_marked : gmap string bool := {[ "redhat-operators" := true ]}.

(** The same default as an object of another namespace. *)
Definition elsewhere : olm.CatalogSource fake.Image :=
  {| olm.ObjectMeta :=
       {| metav1.Name := "redhat-operators";
          metav1.Namespace := "my-namespace";
          metav1.DeletionTimestamp := None |};
     olm.Spec := "quay.io/someone/edited-index:latest" |}.

End fake_hub.

(** ** The manager binary: bootstrap of the defaults *)

Module bootstrap.
Section Bootstrap.
Context {error : Type} `{GoError error}.

(** [operatorhub.DefaultName], and how [fmt] prints the result of
    [EnsureAll] under [%v]: both are declared outside the sources at hand. *)
Variable DefaultName : string.
Variable Sprint : gmap string error -> string.

(** How the cluster answers [ensureDefaults]. *)
Record Answers := {
  client_New_err : option error;        (* [client.New(cfg, ...)] *)
  IsAPIAvailable : bool;                (* [configv1.IsAPIAvailable()] *)
  Get_OperatorHub_err : option error;   (* [clientForDefaults.Get(...)] *)
  EnsureAll_result : gmap string error  (* [defaults.New(...).EnsureAll(...)] *)
}.

(** What [ensureDefaults] did, in order. *)
Inductive Step :=
| ClientNew
| GetOperatorHub (name : string)
| EnsureAll
| Errorf (msg : string).

(** The error [ensureDefaults] returns: one it was given, or one it made. *)
Inductive failure :=
| Returned (err : error)
| Formatted (msg : string).

(** [ensureDefaults] ensures that all the default OperatorSources are
    present on the cluster. *)
Definition ensureDefaults (a : Answers) : option failure * list Step :=
  match client_New_err a with
  | Some err =>
      (Some (Returned err),
       [ClientNew;
        Errorf ("Error initializing client for handling defaults - " +:+ Error err)])
  | None =>
      (* Ensure that the default OperatorSources are present based on the
         definitions in the defaults directory *)
      let ensure (done : list Step) : option failure * list Step :=
        let result := EnsureAll_result a in
        if bool_decide (size result <> 0%nat) then
          (Some (Formatted ("[defaults] Error ensuring default OperatorSource(s) - " +:+
                            Sprint result)),
           done ++ [EnsureAll])
        else (None, done ++ [EnsureAll]) in
      if IsAPIAvailable a then
        (* Check if the cluster OperatorHub config resource is present. *)
        match Get_OperatorHub_err a with
        | None =>
            (* The default OperatorHub config resource is present which will
               take care of ensuring defaults *)
            (None, [ClientNew; GetOperatorHub DefaultName])
        | Some _ => ensure [ClientNew; GetOperatorHub DefaultName]
        end
      else ensure [ClientNew]
  end.

End Bootstrap.
Global Arguments Answers : clear implicits.
Global Arguments failure : clear implicits.
End bootstrap.

(** ** The manager binary: from the flags to the leader election *)

Module startup.
Section Startup.
Context {error : Type} `{GoError error}.

(** The flags [main] declares. *)
Record Flags := {
  clusterOperatorName : string;
  defaultsDir : string;
  version : bool;
  tlsKeyPath : string;
  tlsCertPath : string;
  leaderElectionNamespace : string
}.

(** The value of every flag that the command line does not set. *)
Definition unset : Flags :=
  {| clusterOperatorName := ""; defaultsDir := ""; version := false;
     tlsKeyPath := ""; tlsCertPath := "";
     leaderElectionNamespace := "openshift-marketplace" |}.

(** What the command line, the machine and the cluster answer while [main]
    sets up.  [flag.Parse()] gives the flags as the command line sets them,
    or ends the process itself, with a status of its own (the flag set of
    the command line exits on an argument it cannot parse and on a request
    for help).  Each [AddToScheme] may fail. *)
Record Host := {
  GoVersion : string;                          (* [runtime.Version()] *)
  GOOS : string;
  GOARCH : string;
  sdkVersion : string;                         (* [sdkVersion.Version] *)
  sourceCommit : string;                       (* [sourceCommit.String()] *)
  flag_Parse : Z + Flags;
  ServePrometheus_err : option error;
  GetWatchNamespace_err : option error;
  GetConfig_err : option error;
  SetConfigAPIAvailability_err : option error;
  IsAPIAvailable : bool;                       (* [configv1.IsAPIAvailable()] *)
  apis_AddToScheme_err : option error;
  olmv1alpha1_AddToScheme_err : option error;
  v1beta1_AddToScheme_err : option error;
  corev1_AddToScheme_err : option error;
  apiconfigv1_AddToScheme_err : option error;
  manager_New_err : option error;
  NewForConfig_err : option error;
  POD_NAME : string;                           (* [os.Getenv("POD_NAME")] *)
  Hostname : error + string                    (* [os.Hostname()] *)
}.

Definition defaultLeaderElectionConfigMapName : string := "marketplace-operator-lock".

Definition defaultRetryPeriod : time.Duration := 30 * time.Second.

Definition defaultRenewDeadline : time.Duration := 60 * time.Second.

Definition defaultLeaseDuration : time.Duration := 90 * time.Second.

(** The lock and the timing [main] hands to [leaderelection.RunOrDie]. *)
Record LeaderElectionConfig := {
  LockName : string;
  LockNamespace : string;
  Identity : string;
  ReleaseOnCancel : bool;
  LeaseDuration : time.Duration;
  RenewDeadline : time.Duration;
  RetryPeriod : time.Duration
}.

(** How [main] goes on: the process ends with a status, or it panics with
    an error, or it enters the leader election. *)
Inductive Outcome :=
| Exit (code : Z)
| Panic (err : error)
| RunOrDie (config : LeaderElectionConfig).

Definition printVersion (h : Host) : list logrus.Entry :=
  [(logrus.InfoLevel, "Go Version: " +:+ GoVersion h);
   (logrus.InfoLevel, "Go OS/Arch: " +:+ GOOS h +:+ "/" +:+ GOARCH h);
   (logrus.InfoLevel, "operator-sdk Version: " +:+ sdkVersion h)].

(** [setupScheme]: the error [utilruntime.Must] panics with, if a
    registration fails; the OpenShift config types are registered only when
    their API is available. *)
Definition setupScheme (h : Host) : option error :=
  match apis_AddToScheme_err h with
  | Some e => Some e
  | None =>
      match olmv1alpha1_AddToScheme_err h with
      | Some e => Some e
      | None =>
          match v1beta1_AddToScheme_err h with
          | Some e => Some e
          | None =>
              match corev1_AddToScheme_err h with
              | Some e => Some e
              | None =>
                  if IsAPIAvailable h then apiconfigv1_AddToScheme_err h
                  else None
              end
          end
      end
  end.

(** [logger.Fatal]: the line, then [os.Exit(1)]. *)
Definition Fatal (msg : string) (out : list logrus.Entry) :
  Outcome * list logrus.Entry :=
  (Exit 1, out ++ [(logrus.FatalLevel, msg)]).

(** [if err != nil { logger.Fatal... }], and the rest of [main] otherwise. *)
Definition must (err : option error) (msg : string -> string)
  (out : list logrus.Entry)
  (rest : list logrus.Entry -> Outcome * list logrus.Entry) :
  Outcome * list logrus.Entry :=
  match err with
  | Some e => Fatal (msg (Error e)) out
  | None => rest out
  end.

Definition Info (msg : string) (out : list logrus.Entry) : list logrus.Entry :=
  out ++ [(logrus.InfoLevel, msg)].

(** [main], up to the call of [leaderelection.RunOrDie]. *)
Definition main (h : Host) : Outcome * list logrus.Entry :=
  let out := printVersion h in
  match flag_Parse h with
  | inl code => (Exit code, out)
  | inr f =>
    (* Check if version flag was set *)
    if version f then (Exit 0, Info (sourceCommit h) out)
    else
      must (ServePrometheus_err h)
        (fun e => "failed to serve prometheus metrics: " +:+ e) out (fun out =>
      must (GetWatchNamespace_err h)
        (fun e => "failed to get watch namespace: " +:+ e) out (fun out =>
      (* Get a config to talk to the apiserver *)
      must (GetConfig_err h) (fun e => e) out (fun out =>
      (* Set OpenShift config API availability *)
      must (SetConfigAPIAvailability_err h) (fun e => e) out (fun out =>
      let out := Info "setting up scheme" out in
      match setupScheme h with
      | Some e => (Panic e, out)
      | None =>
      must (manager_New_err h) (fun e => e) out (fun out =>
      let out := Info "setting up health checks" out in
      must (NewForConfig_err h)
        (fun e => "failed to initialize the kubernetes clientset: " +:+ e) out (fun out =>
      let elect id out :=
        (RunOrDie {| LockName := defaultLeaderElectionConfigMapName;
                     LockNamespace := leaderElectionNamespace f;
                     Identity := id;
                     ReleaseOnCancel := true;
                     LeaseDuration := defaultLeaseDuration;
                     RenewDeadline := defaultRenewDeadline;
                     RetryPeriod := defaultRetryPeriod |}, out) in
      let id := POD_NAME h in
      if bool_decide (id = "") then
        let out := Info "failed to determine $POD_NAME falling back to hostname" out in
        match Hostname h with
        | inl err => Fatal (Error err) out
        | inr id => elect id out
        end
      else elect id out))
      end))))
  end.

End Startup.
Global Arguments Host : clear implicits.
Global Arguments Outcome : clear implicits.
End startup.

(** ** The callbacks as the leader election delivers them *)

Module election.

(** The callbacks that can follow [OnStartedLeading]. *)
Inductive Callback :=
| StoppedLeading
| NewLeader (identity : string).

Definition deliver (id : string) (p : main.Process) (cb : Callback) : main.Process :=
  match cb with
  | StoppedLeading => main.OnStoppedLeading id p
  | NewLeader identity => main.OnNewLeader id identity p
  end.

Definition deliver_all (id : string) (cbs : list Callback) (p : main.Process) :
  main.Process :=
  foldl (deliver id) p cbs.

(** The callbacks that say something: all but the news that the process
    itself is the leader. *)
Definition is_news (id : string) (cb : Callback) : bool :=
  match cb with
  | StoppedLeading => true
  | NewLeader identity => negb (bool_decide (identity = id))
  end.

End election.

(** ** A machine to start the manager on *)

Module fake_host.

(** A pod started with no arguments, whose name is not in the environment,
    on a host that has one. *)
Definition unnamed_pod : startup.Host fake.StatusError :=
  {| startup.GoVersion := "go1.13.15";
     startup.GOOS := "linux";
     startup.GOARCH := "amd64";
     startup.sdkVersion := "v0.19.0";
     startup.sourceCommit := "Marketplace source git commit: 0123abc";
     startup.flag_Parse := inr startup.unset;
     startup.ServePrometheus_err := None;
     startup.GetWatchNamespace_err := None;
     startup.GetConfig_err := None;
     startup.SetConfigAPIAvailability_err := None;
     startup.IsAPIAvailable := true;
     startup.apis_AddToScheme_err := None;
     startup.olmv1alpha1_AddToScheme_err := None;
     startup.v1beta1_AddToScheme_err := None;
     startup.corev1_AddToScheme_err := None;
     startup.apiconfigv1_AddToScheme_err := None;
     startup.manager_New_err := None;
     startup.NewForConfig_err := None;
     startup.POD_NAME := "";
     startup.Hostname := inr "marketplace-operator-7d9f" |}.

(** A request for the default's name in the namespace of [elsewhere]. *)
Definition request_elsewhere : reconcile.Request :=
  {| reconcile.NamespacedName :=
       {| types.Namespace := "my-namespace"; types.Name := "redhat-operators" |} |}.

End fake_host.

(** ** The work queue calling back *)

Module requeue.
Section Requeue.
Context {CatalogSourceSpec : Type}.
Context `{EqDecision CatalogSourceSpec} `{GoZero CatalogSourceSpec}.
Context {error : Type} `{GoError error}.
Context {S : Type}.
Variable defaultCatalogsources : gmap string (olm.CatalogSource CatalogSourceSpec).
Variable operatorhubConfig : gmap string bool.

(** [n] invocations of [Reconcile] for the same request, one after the
    other, with their results in order. *)
Fixpoint Reconcile_times (n : nat)
  (r : catalogsource.ReconcileCatalogSource CatalogSourceSpec error S)
  (request : reconcile.Request) :
  effect.M CatalogSourceSpec S (list (reconcile.Result * option error)) :=
  match n with
  | O => effect.ret []
  | Datatypes.S n =>
      (x <- catalogsource.Reconcile defaultCatalogsources operatorhubConfig r request ;;
       xs <- Reconcile_times n r request ;;
       effect.ret (x :: xs))%go
  end.

End Requeue.
End requeue.

(** * Properties *)

(** ** Reconcile, case by case *)

Module catalogsource_facts.
Section Facts.
Context {CatalogSourceSpec : Type}.
Context `{EqDecision CatalogSourceSpec} `{GoZero CatalogSourceSpec}.
Context {error : Type} `{GoError error}.
Context {S : Type}.
Variable defaultCatalogsources : gmap string (olm.CatalogSource CatalogSourceSpec).
Variable operatorhubConfig : gmap string bool.
Variable r : catalogsource.ReconcileCatalogSource CatalogSourceSpec error S.
Variable request : reconcile.Request.

Local Abbreviation Reconcile :=
  (catalogsource.Reconcile defaultCatalogsources operatorhubConfig r request).
Local Abbreviation Reconcile_twice :=
  (catalogsource.Reconcile_twice defaultCatalogsources operatorhubConfig r request).
Local Abbreviation desired := (reconciling.desired defaultCatalogsources request).
Local Abbreviation key := (reconciling.key request).
Local Abbreviation fetch := (reconciling.fetch r request).
Local Abbreviation outcome :=
  (reconciling.outcome defaultCatalogsources operatorhubConfig r request).

Lemma Reconcile_outcome s : outcome s (Reconcile s).
Proof.
  destruct (fetch s) as [[e|inst] s1] eqn:Hget.
  - destruct (IsNotFound e) eqn:Hnf.
    + destruct (go_index operatorhubConfig (olm.GetName desired)) eqn:Hhub.
      * replace (Reconcile s) with
          ((zero_value : reconcile.Result, @None error), s1,
           [reconciling.entering (CatalogSourceSpec:=CatalogSourceSpec) request;
            effect.ClientGet key]).
        { eapply reconciling.absent_and_known; eauto. }
        run_Reconcile. by rewrite Hget, Hnf, Hhub.
      * destruct (client.Create (catalogsource.client r) desired s1)
          as [cerr s2] eqn:Hcreate.
        replace (Reconcile s) with
          ((zero_value : reconcile.Result, @None error), s2,
           [reconciling.entering request; effect.ClientGet key;
            effect.ClientCreate desired]
             ++ reconciling.warning
                  (reconciling.create_failed defaultCatalogsources request) cerr).
        { eapply reconciling.absent_and_created; eauto. }
        run_Reconcile. rewrite Hget, Hnf, Hhub. simpl. rewrite Hcreate.
        by destruct cerr.
    + replace (Reconcile s) with
        ((catalogsource.requeue_after_5s, Some e), s1,
         [reconciling.entering (CatalogSourceSpec:=CatalogSourceSpec) request;
          effect.ClientGet key]).
      { eapply reconciling.fetch_failed; eauto. }
      run_Reconcile. by rewrite Hget, Hnf.
  - destruct (olm.DeletionTimestamp inst) as [t|] eqn:Hdel.
    + replace (Reconcile s) with
        ((catalogsource.requeue_after_5s, @None error), s1,
         [reconciling.entering (CatalogSourceSpec:=CatalogSourceSpec) request;
          effect.ClientGet key]).
      { eapply reconciling.being_deleted; eauto. }
      run_Reconcile. by rewrite Hget, Hdel.
    + destruct (decide (olm.Spec inst = olm.Spec desired)) as [Heq|Hne].
      * replace (Reconcile s) with
          ((zero_value : reconcile.Result, @None error), s1,
           [reconciling.entering (CatalogSourceSpec:=CatalogSourceSpec) request;
            effect.ClientGet key]).
        { eapply reconciling.in_sync; eauto. }
        run_Reconcile. rewrite Hget, Hdel.
        unfold defaults.AreCatsrcSpecsEqual. by rewrite bool_decide_eq_true_2.
      * destruct (client.Delete (catalogsource.client r) inst s1)
          as [derr s2] eqn:Hdelete.
        replace (Reconcile s) with
          ((catalogsource.requeue_after_5s, @None error), s2,
           [reconciling.entering request; effect.ClientGet key;
            effect.ClientDelete inst]
             ++ reconciling.warning
                  (reconciling.delete_failed defaultCatalogsources request) derr).
        { eapply reconciling.drifted; eauto. }
        run_Reconcile. rewrite Hget, Hdel.
        unfold defaults.AreCatsrcSpecsEqual.
        rewrite bool_decide_eq_false_2 by congruence.
        simpl. rewrite Hdelete. by destruct derr.
Qed.

(** ** The claims about [Reconcile] *)

(** C1: when the fetched object exists, has no deletion timestamp and its
    specification differs from the desired one, [Reconcile] calls the store
    twice, the fetch and one delete of the fetched object (so no create and
    no update), and returns a requeue after five seconds and no error,
    whatever the delete returns. *)
Theorem Reconcile_drift_deletes_and_requeues s inst s1 :
  fetch s = (inr inst, s1) ->
  olm.DeletionTimestamp inst = None ->
  olm.Spec inst <> olm.Spec desired ->
  let t := effect.trace (Reconcile s) in
  effect.client_calls t = [effect.ClientGet key; effect.ClientDelete inst] /\
  effect.deletes t = [effect.ClientDelete inst] /\
  effect.creates t = [] /\
  effect.updates t = [] /\
  effect.value (Reconcile s) =
    ({| reconcile.Requeue := true; reconcile.RequeueAfter := 5 * 1000000000 |}, None) /\
  effect.final (Reconcile s) = (client.Delete (catalogsource.client r) inst s1).2.
Proof.
  intros Hget Hdel Hne t. subst t.
  destruct (Reconcile_outcome s); agree.
  match goal with Hd : client.Delete _ _ _ = _ |- _ => rewrite Hd end.
  destruct derr; repeat split.
Qed.

(** C2: when the fetch says not-found and the OperatorHub flag under the
    name of the default is false, [Reconcile] calls create once, with the
    desired definition, and returns the empty result and no error whatever
    the create returns. *)
Theorem Reconcile_not_found_creates_and_swallows s e s1 :
  fetch s = (inl e, s1) ->
  IsNotFound e = true ->
  go_index operatorhubConfig (olm.GetName desired) = false ->
  let t := effect.trace (Reconcile s) in
  effect.client_calls t = [effect.ClientGet key; effect.ClientCreate desired] /\
  effect.value (Reconcile s) =
    ({| reconcile.Requeue := false; reconcile.RequeueAfter := 0 |}, None) /\
  effect.final (Reconcile s) = (client.Create (catalogsource.client r) desired s1).2.
Proof.
  intros Hget Hnf Hhub t. subst t.
  destruct (Reconcile_outcome s); agree.
  match goal with Hc : client.Create _ _ _ = _ |- _ => rewrite Hc end.
  destruct cerr; repeat split.
Qed.

(** C3: when the fetched object has a deletion timestamp, [Reconcile] makes
    no call but the fetch, so neither a create nor a delete, and returns a
    requeue after five seconds and no error, which is not the empty result. *)
Theorem Reconcile_pending_deletion_only_requeues s inst s1 :
  fetch s = (inr inst, s1) ->
  olm.DeletionTimestamp inst <> None ->
  let t := effect.trace (Reconcile s) in
  effect.client_calls t = [effect.ClientGet key] /\
  effect.creates t = [] /\
  effect.deletes t = [] /\
  effect.value (Reconcile s) =
    ({| reconcile.Requeue := true; reconcile.RequeueAfter := 5 * 1000000000 |}, None) /\
  (effect.value (Reconcile s)).1 <> zero_value.
Proof.
  intros Hget Hdel t. subst t.
  destruct (Reconcile_outcome s); agree.
  repeat split. discriminate.
Qed.

(** C6: the error [Reconcile] returns is the error of the fetch when that is
    not a not-found, and none in every other case; with an error comes the
    requeue after five seconds.  What create and delete return never shows
    in the result. *)
Theorem Reconcile_error_iff_fetch_failed s :
  let out := effect.value (Reconcile s) in
  (forall e, out.2 = Some e <-> (fetch s).1 = inl e /\ IsNotFound e = false) /\
  (out.2 <> None <-> exists e, (fetch s).1 = inl e /\ IsNotFound e = false) /\
  (out.2 <> None ->
   out.1 = {| reconcile.Requeue := true; reconcile.RequeueAfter := 5 * 1000000000 |}) /\
  (effect.creates (effect.trace (Reconcile s)) <> [] \/
   effect.deletes (effect.trace (Reconcile s)) <> [] -> out.2 = None).
Proof.
  intros out. subst out.
  destruct (Reconcile_outcome s) as
    [e s1 Hget Hnf|e s1 Hget Hnf Hhub|e s1 cerr s2 Hget Hnf Hhub Hc
    |inst s1 t Hget Hdel|inst s1 derr s2 Hget Hdel Hne Hd|inst s1 Hget Hdel Heq];
    rewrite Hget; cbn [effect.value effect.trace fst snd].
  all: repeat split; intros; destruct_and?; simplify_eq; eauto.
  all: try match goal with Hex : exists _, _ |- _ => destruct Hex as (? & ? & ?) end.
  all: try match goal with Hor : _ \/ _ |- _ => destruct Hor as [Hor|Hor]; by destruct Hor end.
  all: congruence.
Qed.

(** C7: when the fetched object has no deletion timestamp and its
    specification equals the desired one, [Reconcile] asks for no change of
    the store and returns the empty result and no error; and when the fetch
    left the state as it was, an invocation right after the first finds the
    same and asks for no change either. *)
Theorem Reconcile_in_sync_is_idempotent s inst s1 :
  fetch s = (inr inst, s1) ->
  olm.DeletionTimestamp inst = None ->
  olm.Spec inst = olm.Spec desired ->
  (effect.mutations (effect.trace (Reconcile s)) = [] /\
   effect.client_calls (effect.trace (Reconcile s)) = [effect.ClientGet key] /\
   effect.value (Reconcile s) =
     ({| reconcile.Requeue := false; reconcile.RequeueAfter := 0 |}, None) /\
   effect.final (Reconcile s) = s1) /\
  (s1 = s ->
   Reconcile (effect.final (Reconcile s)) = Reconcile s /\
   effect.mutations (effect.trace (Reconcile_twice s)) = [] /\
   effect.value (Reconcile_twice s) =
     (effect.value (Reconcile s), effect.value (Reconcile s)) /\
   effect.final (Reconcile_twice s) = s).
Proof.
  intros Hget Hdel Heq.
  assert (Hrun : Reconcile s =
                 ((zero_value, None), s1,
                  [reconciling.entering request; effect.ClientGet key])).
  { destruct (Reconcile_outcome s); agree. }
  split.
  - rewrite Hrun. repeat split.
  - intros ->. unfold catalogsource.Reconcile_twice, effect.bind, effect.ret.
    rewrite !Hrun. cbn [effect.final fst snd]. rewrite !Hrun. repeat split.
Qed.

(** C8 as the code has it: for a name the registry does not hold,
    [Reconcile] goes on with the zero-value definition as the desired one.
    It asks for no change of the store and returns the empty result exactly
    when the store holds, under that name, an object with no deletion
    timestamp and the zero-value specification, or when the fetch says
    not-found and the OperatorHub flag under the empty name is true. *)
Theorem Reconcile_unmanaged_name_uses_zero_definition s :
  defaultCatalogsources !! reconcile.Name request = None ->
  desired = zero_value /\
  ((effect.mutations (effect.trace (Reconcile s)) = [] /\
    effect.value (Reconcile s) = (zero_value, None))
   <->
   (exists inst, (fetch s).1 = inr inst /\ olm.DeletionTimestamp inst = None /\
                 olm.Spec inst = zero_value) \/
   (exists e, (fetch s).1 = inl e /\ IsNotFound e = true /\
              go_index operatorhubConfig "" = true)).
Proof.
  intros Habsent.
  assert (Hzero : desired = zero_value).
  { unfold reconciling.desired, go_index. by rewrite Habsent. }
  split; [done|].
  destruct (Reconcile_outcome s) as
    [e s1 Hget Hnf|e s1 Hget Hnf Hhub|e s1 cerr s2 Hget Hnf Hhub Hc
    |inst s1 t Hget Hdel|inst s1 derr s2 Hget Hdel Hne Hd|inst s1 Hget Hdel Heq];
    rewrite Hget; try rewrite Hzero in Hhub; try rewrite Hzero in Hne;
    try rewrite Hzero in Heq; cbn [fst snd effect.value effect.trace].
  - split; [intros [_ ?]; simplify_eq|].
    intros [(i & ? & _)|(e' & ? & ? & _)]; simplify_eq; congruence.
  - split; [|done]. intros _. right. exists e. by repeat split.
  - split; [intros [Hm _]; by destruct cerr|].
    change (olm.GetName zero_value) with "" in Hhub.
    intros [(i & ? & _)|(e' & ? & _ & Hflag)]; simplify_eq; congruence.
  - split; [intros [_ ?]; simplify_eq|].
    intros [(i & ? & ? & _)|(e' & ? & _)]; simplify_eq; congruence.
  - split; [intros [Hm _]; by destruct derr|].
    intros [(i & ? & _ & ?)|(e' & ? & _)]; simplify_eq; congruence.
  - split; [|done]. intros _. left. exists inst. by repeat split.
Qed.

(** C9: whatever the fetch returns, one invocation of [Reconcile] asks for
    at most one change of the store: at most one create, at most one delete,
    and not both. *)
Theorem Reconcile_at_most_one_mutation s :
  let t := effect.trace (Reconcile s) in
  (length (effect.creates t) <= 1)%nat /\
  (length (effect.deletes t) <= 1)%nat /\
  (effect.creates t = [] \/ effect.deletes t = []) /\
  effect.updates t = [] /\
  (length (effect.mutations t) <= 1)%nat.
Proof.
  intros t. subst t.
  destruct (Reconcile_outcome s) as
    [e s1 Hget Hnf|e s1 Hget Hnf Hhub|e s1 cerr s2 Hget Hnf Hhub Hc
    |inst s1 t Hget Hdel|inst s1 derr s2 Hget Hdel Hne Hd|inst s1 Hget Hdel Heq];
    try destruct cerr; try destruct derr;
    trace_filters; cbn [length]; repeat split; auto with lia.
Qed.

End Facts.
End catalogsource_facts.

(** ** The event filter *)

Module predicate_facts.
Section Facts.
Context {CatalogSourceSpec : Type}.
Variable defaultCatalogsources : gmap string (olm.CatalogSource CatalogSourceSpec).

Local Abbreviation pred := (catalogsource.pred defaultCatalogsources).

(** The three filters that look a name up say whether the registry has it;
    the delete filter asks for a known final state besides. *)
Lemma UpdateFunc_eq e :
  predicate.UpdateFunc pred e =
  bool_decide (is_Some (defaultCatalogsources !! metav1.GetName (event.MetaOld e))).
Proof.
  cbn. destruct (defaultCatalogsources !! _) eqn:Hm.
  - by rewrite bool_decide_eq_true_2.
  - rewrite bool_decide_eq_false_2; [done|]. by intros [? ?].
Qed.

Lemma DeleteFunc_eq e :
  predicate.DeleteFunc pred e =
  bool_decide (is_Some (defaultCatalogsources !! metav1.GetName (event.DeleteMeta e)))
  && negb (event.DeleteStateUnknown e).
Proof.
  cbn. destruct (defaultCatalogsources !! _) eqn:Hm.
  - rewrite bool_decide_eq_true_2 by done. by destruct (event.DeleteStateUnknown e).
  - rewrite bool_decide_eq_false_2; [done|]. by intros [? ?].
Qed.

Lemma GenericFunc_eq e :
  predicate.GenericFunc pred e =
  bool_decide (is_Some (defaultCatalogsources !! metav1.GetName (event.GenericMeta e))).
Proof.
  cbn. destruct (defaultCatalogsources !! _) eqn:Hm.
  - by rewrite bool_decide_eq_true_2.
  - rewrite bool_decide_eq_false_2; [done|]. by intros [? ?].
Qed.

(** C4: the filter lets no create event through, no delete event whose
    final state is unknown, and no update, delete or generic event whose
    name (for an update, the name in the old metadata) the registry does not
    hold. *)
Theorem pred_drops_irrelevant_events :
  (forall e, predicate.CreateFunc pred e = false) /\
  (forall e, event.DeleteStateUnknown e = true -> predicate.DeleteFunc pred e = false) /\
  (forall e, defaultCatalogsources !! metav1.GetName (event.MetaOld e) = None ->
             predicate.UpdateFunc pred e = false) /\
  (forall e, defaultCatalogsources !! metav1.GetName (event.DeleteMeta e) = None ->
             predicate.DeleteFunc pred e = false) /\
  (forall e, defaultCatalogsources !! metav1.GetName (event.GenericMeta e) = None ->
             predicate.GenericFunc pred e = false).
Proof.
  split; [done|].
  split; [intros e Hunknown; rewrite DeleteFunc_eq, Hunknown; apply andb_false_r|].
  split; [intros e Hm; rewrite UpdateFunc_eq, Hm; apply bool_decide_eq_false_2; by intros [? ?]|].
  split; intros e Hm.
  - rewrite DeleteFunc_eq, Hm. rewrite bool_decide_eq_false_2; [done|]. by intros [? ?].
  - rewrite GenericFunc_eq, Hm. apply bool_decide_eq_false_2. by intros [? ?].
Qed.

(** C10: for an update event the filter says true exactly when the registry
    holds the name in the old metadata; two update events with the same old
    name get the same answer, whatever their new metadata and objects. *)
Theorem UpdateFunc_reads_old_name_only :
  (forall e, predicate.UpdateFunc pred e = true <->
             is_Some (defaultCatalogsources !! metav1.GetName (event.MetaOld e))) /\
  (forall e1 e2,
     metav1.GetName (event.MetaOld e1) = metav1.GetName (event.MetaOld e2) ->
     predicate.UpdateFunc pred e1 = predicate.UpdateFunc pred e2).
Proof.
  split.
  - intros e. rewrite UpdateFunc_eq. apply bool_decide_eq_true.
  - intros e1 e2 Hname. by rewrite !UpdateFunc_eq, Hname.
Qed.

End Facts.
End predicate_facts.

(** ** The leader-election callbacks *)

Module main_facts.
Section Facts.
Context {error : Type} `{GoError error}.

Lemma logger_log_keeps_manager l msg p :
  main.manager_running (main.logger_log l msg p) = main.manager_running p.
Proof. done. Qed.

(** [run] does not read the context it is given. *)
Lemma run_ignores_ctx (setup : main.Setup error) ctx1 ctx2 p :
  main.run setup ctx1 p = main.run setup ctx2 p.
Proof. done. Qed.

(** When every collaborator answers well, the new leader's manager runs. *)
Lemma OnStartedLeading_starts_manager (setup : main.Setup error) id ctx p :
  main.clusterOperatorName setup = "" ->
  main.PopulateGlobals_err setup = None ->
  main.AddToManager_err setup = None ->
  main.ensureDefaults_err setup = None ->
  main.stopCh_closed p = false -> main.exited p = false ->
  main.manager_running (main.OnStartedLeading setup id ctx p) = true.
Proof.
  intros Hname Hpop Hadd Hens Hstop Hexit.
  unfold main.OnStartedLeading, main.run.
  rewrite Hname, Hpop, Hadd, Hens.
  destruct p as [stop cancelled running gone out]; cbn in Hstop, Hexit; subst.
  reflexivity.
Qed.

(** C5 as the code has it: [OnStoppedLeading] writes one warning and
    changes nothing else, so a manager that was running when it was called
    is running when it returns. *)
Theorem OnStoppedLeading_only_logs (id : string) (p : main.Process) :
  main.OnStoppedLeading id p =
    main.logger_log logrus.WarnLevel
      ("leader election lost for " +:+ id +:+ " identity") p /\
  main.mgr_started (main.OnStoppedLeading id p) = main.mgr_started p /\
  main.stopCh_closed (main.OnStoppedLeading id p) = main.stopCh_closed p /\
  main.leaderCtx_cancelled (main.OnStoppedLeading id p) = main.leaderCtx_cancelled p /\
  main.exited (main.OnStoppedLeading id p) = main.exited p /\
  main.manager_running (main.OnStoppedLeading id p) = main.manager_running p.
Proof.
  unfold main.OnStoppedLeading, main.logger_Warnf.
  split; [reflexivity|].
  destruct p as [stop cancelled running gone out].
  unfold main.manager_running. cbn. repeat split.
Qed.

End Facts.
End main_facts.

(** ** The statements at work on the fake store *)

Module examples.

Local Abbreviation Reconcile :=
  (catalogsource.Reconcile fake.registry fake.nothing_disabled fake.reconciler).

(** The default has been edited and the API server refuses writes: the
    delete is tried once and the request comes back in five seconds. *)
Lemma Reconcile_drift_example :
  let s := fake.cluster_with [fake.drifted] true in
  let out := Reconcile (fake.request "redhat-operators") s in
  effect.client_calls (effect.trace out) =
    [effect.ClientGet (reconciling.key (fake.request "redhat-operators"));
     effect.ClientDelete fake.drifted] /\
  effect.value out =
    ({| reconcile.Requeue := true; reconcile.RequeueAfter := 5000000000 |}, None) /\
  (client.Delete fake.Client fake.drifted s).1 = Some fake.ServerTimeout.
Proof.
  intros s out.
  destruct (catalogsource_facts.Reconcile_drift_deletes_and_requeues
              fake.registry fake.nothing_disabled fake.reconciler
              (fake.request "redhat-operators") s fake.drifted s)
    as (Hcalls & _ & _ & _ & Hvalue & _).
  - reflexivity.
  - reflexivity.
  - discriminate.
  - split; [exact Hcalls | split; [exact Hvalue | reflexivity]].
Defined.

(** The default is missing, nothing marks it as known, and the API server
    refuses writes: the create is tried and its failure is not returned. *)
Lemma Reconcile_not_found_example :
  let s := fake.cluster_with [] true in
  let out := Reconcile (fake.request "redhat-operators") s in
  effect.client_calls (effect.trace out) =
    [effect.ClientGet (reconciling.key (fake.request "redhat-operators"));
     effect.ClientCreate fake.desired] /\
  effect.value out =
    ({| reconcile.Requeue := false; reconcile.RequeueAfter := 0 |}, None) /\
  (client.Create fake.Client fake.desired s).1 = Some fake.ServerTimeout.
Proof.
  intros s out.
  destruct (catalogsource_facts.Reconcile_not_found_creates_and_swallows
              fake.registry fake.nothing_disabled fake.reconciler
              (fake.request "redhat-operators") s
              (fake.NotFound "redhat-operators") s)
    as (Hcalls & Hvalue & _).
  - reflexivity.
  - reflexivity.
  - reflexivity.
  - split; [exact Hcalls | split; [exact Hvalue | reflexivity]].
Defined.

(** The default is on its way out: only the fetch, and a requeue. *)
Lemma Reconcile_pending_deletion_example :
  let s := fake.cluster_with [fake.terminating] false in
  let out := Reconcile (fake.request "redhat-operators") s in
  effect.client_calls (effect.trace out) =
    [effect.ClientGet (reconciling.key (fake.request "redhat-operators"))] /\
  effect.value out =
    ({| reconcile.Requeue := true; reconcile.RequeueAfter := 5000000000 |}, None).
Proof.
  intros s out.
  destruct (catalogsource_facts.Reconcile_pending_deletion_only_requeues
              fake.registry fake.nothing_disabled fake.reconciler
              (fake.request "redhat-operators") s fake.terminating s)
    as (Hcalls & _ & _ & Hvalue & _).
  - reflexivity.
  - discriminate.
  - split; [exact Hcalls | exact Hvalue].
Defined.

(** The default is as desired: two invocations in a row leave the store
    as it is. *)
Lemma Reconcile_in_sync_example :
  let s := fake.cluster_with [fake.desired] false in
  let twice :=
    catalogsource.Reconcile_twice fake.registry fake.nothing_disabled
      fake.reconciler (fake.request "redhat-operators") s in
  effect.mutations (effect.trace twice) = [] /\ effect.final twice = s.
Proof.
  intros s twice.
  destruct (catalogsource_facts.Reconcile_in_sync_is_idempotent
              fake.registry fake.nothing_disabled fake.reconciler
              (fake.request "redhat-operators") s fake.desired s)
    as (_ & Hagain).
  - reflexivity.
  - reflexivity.
  - reflexivity.
  - destruct (Hagain eq_refl) as (_ & Hmut & _ & Hfinal).
    split; [exact Hmut | exact Hfinal].
Defined.

(** A name the registry does not hold, and an object of the user's under
    it: the amended statement applies, and its right-hand side is false. *)
Lemma Reconcile_unmanaged_name_example :
  let s := fake.cluster_with [fake.custom] false in
  reconciling.desired fake.registry (fake.request "my-catalog") = zero_value /\
  ~ (effect.mutations (effect.trace (Reconcile (fake.request "my-catalog") s)) = [] /\
     effect.value (Reconcile (fake.request "my-catalog") s) = (zero_value, None)).
Proof.
  intros s.
  destruct (catalogsource_facts.Reconcile_unmanaged_name_uses_zero_definition
              fake.registry fake.nothing_disabled fake.reconciler
              (fake.request "my-catalog") s)
    as (Hzero & Hiff).
  - reflexivity.
  - split; [exact Hzero|].
    intros Hnoop. apply Hiff in Hnoop.
    assert (Hfetch : (reconciling.fetch fake.reconciler (fake.request "my-catalog") s).1
                     = inr fake.custom) by reflexivity.
    destruct Hnoop as [(inst & Hget & _ & Hspec)|(e & Hget & _)];
      rewrite Hfetch in Hget.
    + injection Hget as <-. discriminate Hspec.
    + discriminate Hget.
Defined.

(** C8, as stated, fails: [my-catalog] is no key of the registry, the store
    holds an object of that name, and [Reconcile] deletes it and asks to be
    called again. *)
Lemma Reconcile_unmanaged_name_deletes :
  let s := fake.cluster_with [fake.custom] false in
  let out := Reconcile (fake.request "my-catalog") s in
  fake.registry !! "my-catalog" = None /\
  effect.mutations (effect.trace out) = [effect.ClientDelete fake.custom] /\
  effect.value out =
    ({| reconcile.Requeue := true; reconcile.RequeueAfter := 5000000000 |}, None) /\
  fake.objects (effect.final out) = ∅ /\
  ~ (effect.mutations (effect.trace out) = [] /\
     effect.value out = (zero_value, None)).
Proof.
  intros s out.
  assert (Hrun : out =
                 ((catalogsource.requeue_after_5s, None),
                  fake.cluster_with [] false,
                  [reconciling.entering (fake.request "my-catalog");
                   effect.ClientGet (reconciling.key (fake.request "my-catalog"));
                   effect.ClientDelete fake.custom])).
  { vm_compute. reflexivity. }
  rewrite Hrun. repeat split.
  intros [Hmut _]. discriminate Hmut.
Qed.

(** Events for the default and for an object of the user's. *)
Lemma pred_example :
  let pred := catalogsource.pred fake.registry in
  predicate.CreateFunc pred (fake.created fake.desired) = false /\
  predicate.DeleteFunc pred (fake.deleted fake.desired true) = false /\
  predicate.UpdateFunc pred (fake.updated fake.custom fake.custom) = false /\
  predicate.DeleteFunc pred (fake.deleted fake.custom false) = false /\
  predicate.GenericFunc pred (fake.resynced fake.custom) = false.
Proof.
  intros pred.
  destruct (predicate_facts.pred_drops_irrelevant_events fake.registry)
    as (Hcreate & Hunknown & Hupdate & Hdelete & Hgeneric).
  split; [apply Hcreate|].
  split; [apply Hunknown; reflexivity|].
  split; [apply Hupdate; reflexivity|].
  split; [apply Hdelete; reflexivity|].
  apply Hgeneric; reflexivity.
Defined.

(** Two update events with the old name of the default: one leaves the
    object alone, the other carries an edited object under another name. *)
Lemma UpdateFunc_example :
  let pred := catalogsource.pred fake.registry in
  predicate.UpdateFunc pred (fake.updated fake.desired fake.desired) = true /\
  predicate.UpdateFunc pred (fake.updated fake.desired fake.custom) =
  predicate.UpdateFunc pred (fake.updated fake.desired fake.desired).
Proof.
  intros pred.
  destruct (predicate_facts.UpdateFunc_reads_old_name_only fake.registry)
    as (Hiff & Hsame).
  split.
  - apply Hiff. eexists. reflexivity.
  - apply Hsame. reflexivity.
Defined.

(** C5, as stated, fails: the process becomes the leader, its manager runs,
    leadership is lost, and the manager is still running when
    [OnStoppedLeading] has returned. *)
Lemma OnStoppedLeading_leaves_manager_running :
  let leading :=
    main.OnStartedLeading fake.setup "marketplace-operator-0"
      main.electionCtx main.started in
  let stepped_down := main.OnStoppedLeading "marketplace-operator-0" leading in
  main.manager_running leading = true /\
  main.manager_running stepped_down = true /\
  ~ (forall id p, main.manager_running (main.OnStoppedLeading id p) = false).
Proof.
  intros leading stepped_down.
  split; [reflexivity|]. split; [reflexivity|].
  intros Hstops. specialize (Hstops "marketplace-operator-0" leading).
  discriminate Hstops.
Qed.

End examples.

(** * More of the controller *)

Module controller_facts.
Section Facts.
Context {CatalogSourceSpec : Type}.
Context `{EqDecision CatalogSourceSpec} `{GoZero CatalogSourceSpec}.
Context {error : Type} `{GoError error}.
Context {S : Type}.
Variable defaultCatalogsources : gmap string (olm.CatalogSource CatalogSourceSpec).
Variable operatorhubConfig : gmap string bool.
Variable r : catalogsource.ReconcileCatalogSource CatalogSourceSpec error S.
Variable request : reconcile.Request.

Local Abbreviation Reconcile :=
  (catalogsource.Reconcile defaultCatalogsources operatorhubConfig r request).
Local Abbreviation desired := (reconciling.desired defaultCatalogsources request).
Local Abbreviation key := (reconciling.key request).
Local Abbreviation fetch := (reconciling.fetch r request).
Local Abbreviation c := (catalogsource.client r).
Local Abbreviation cases :=
  (catalogsource_facts.Reconcile_outcome defaultCatalogsources operatorhubConfig r request).

(** X1: [createNewCatsrcInstance] makes one client call, the create of the
    object it was given; it returns what the create returned and leaves the
    cluster in the state the create left it in; it logs, one warning that
    carries the name and the error, exactly when the create failed. *)
Theorem createNewCatsrcInstance_returns_create_error
  (cl : client.Client CatalogSourceSpec error S)
  (catsrc : olm.CatalogSource CatalogSourceSpec) (s : S) :
  let out := catalogsource.createNewCatsrcInstance cl catsrc s in
  effect.value out = (client.Create cl catsrc s).1 /\
  effect.final out = (client.Create cl catsrc s).2 /\
  effect.client_calls (effect.trace out) = [effect.ClientCreate catsrc] /\
  (effect.value out = None <-> tracing.warnings (effect.trace out) = []) /\
  (forall e, effect.value out = Some e ->
     effect.trace out =
     [effect.ClientCreate catsrc;
      effect.Log (logrus.WarnLevel,
                  "Could not recreate default CatalogSource " +:+
                  olm.GetName catsrc +:+ ". Error: " +:+ Error e)]).
Proof.
  intros out. subst out.
  cbv [catalogsource.createNewCatsrcInstance effect.bind effect.ret effect.emit
       log.Warnf client.create].
  destruct (client.Create cl catsrc s) as [[e|] s1]; cbn.
  - repeat split; try done. intros e' [= <-]. reflexivity.
  - repeat split; done.
Qed.

(** X2: when the fetch says not-found and the OperatorHub flag under the
    name of the default is true, [Reconcile] calls nothing but the fetch and
    returns the empty result and no error. *)
Theorem Reconcile_not_found_and_marked_is_noop s e s1 :
  fetch s = (inl e, s1) ->
  IsNotFound e = true ->
  go_index operatorhubConfig (olm.GetName desired) = true ->
  effect.client_calls (effect.trace (Reconcile s)) = [effect.ClientGet key] /\
  effect.mutations (effect.trace (Reconcile s)) = [] /\
  effect.value (Reconcile s) =
    ({| reconcile.Requeue := false; reconcile.RequeueAfter := 0 |}, None) /\
  effect.final (Reconcile s) = s1.
Proof.
  intros Hget Hnf Hhub.
  destruct (cases s); agree.
  repeat split.
Qed.

(** X3: what [Reconcile] asks the store to change is safe to ask.  The
    first call is the one fetch, under the requested key, and the other
    calls are the mutations.  A delete is of the very object that was
    fetched, which has no deletion timestamp and not the desired
    specification.  A create is of the desired definition, after a
    not-found, with the OperatorHub flag false. *)
Theorem Reconcile_mutations_are_justified s :
  let t := effect.trace (Reconcile s) in
  effect.client_calls t = effect.ClientGet key :: effect.mutations t /\
  (forall obj, effect.ClientDelete obj ∈ t ->
     (fetch s).1 = inr obj /\ olm.DeletionTimestamp obj = None /\
     olm.Spec obj <> olm.Spec desired) /\
  (forall obj, effect.ClientCreate obj ∈ t ->
     obj = desired /\
     go_index operatorhubConfig (olm.GetName desired) = false /\
     exists e, (fetch s).1 = inl e /\ IsNotFound e = true).
Proof.
  intros t. subst t.
  destruct (cases s) as
    [e s1 Hget Hnf|e s1 Hget Hnf Hhub|e s1 cerr s2 Hget Hnf Hhub Hc
    |inst s1 t Hget Hdel|inst s1 derr s2 Hget Hdel Hne Hd|inst s1 Hget Hdel Heq];
    rewrite Hget; cbn [effect.trace fst snd];
    (split; [try destruct cerr; try destruct derr; reflexivity|]);
    split; intros obj Hin;
    repeat (apply elem_of_cons in Hin as [Hin|Hin]; [try discriminate Hin|]);
    try (destruct cerr; cbn in Hin);
    try (destruct derr; cbn in Hin);
    repeat (apply elem_of_cons in Hin as [Hin|Hin]; [try discriminate Hin|]);
    try (by apply elem_of_nil in Hin);
    simplify_eq; eauto.
Qed.

(** X4: the result of [Reconcile] is the empty one or the requeue after
    five seconds; it is the requeue exactly when the fetch failed with
    something else than not-found, or the fetched object is being deleted,
    or its specification is not the desired one. *)
Theorem Reconcile_requeues_iff s :
  let res := (effect.value (Reconcile s)).1 in
  (res = zero_value \/ res = catalogsource.requeue_after_5s) /\
  (reconcile.Requeue res = true <-> reconcile.RequeueAfter res = 5000000000) /\
  (reconcile.Requeue res = true <->
   (exists e, (fetch s).1 = inl e /\ IsNotFound e = false) \/
   (exists inst, (fetch s).1 = inr inst /\
                 (olm.DeletionTimestamp inst <> None \/
                  olm.Spec inst <> olm.Spec desired))).
Proof.
  intros res. subst res.
  destruct (cases s) as
    [e s1 Hget Hnf|e s1 Hget Hnf Hhub|e s1 cerr s2 Hget Hnf Hhub Hc
    |inst s1 t Hget Hdel|inst s1 derr s2 Hget Hdel Hne Hd|inst s1 Hget Hdel Heq];
    rewrite Hget; cbn [effect.value fst snd].
  - split; [by right|]. split; [done|]. split; [|done].
    intros _. left. by exists e.
  - split; [by left|]. split; [done|]. split; [done|].
    intros [(e' & ? & ?)|(i & ? & _)]; simplify_eq; congruence.
  - split; [by left|]. split; [done|]. split; [done|].
    intros [(e' & ? & ?)|(i & ? & _)]; simplify_eq; congruence.
  - split; [by right|]. split; [done|]. split; [|done].
    intros _. right. exists inst. split; [done|]. left. congruence.
  - split; [by right|]. split; [done|]. split; [|done].
    intros _. right. exists inst. split; [done|]. by right.
  - split; [by left|]. split; [done|]. split; [done|].
    intros [(e' & ? & _)|(i & ? & [?|?])]; simplify_eq; congruence.
Qed.

(** X5: [Reconcile] logs a warning exactly when the create or the delete it
    called returned an error; it logs at most one, and none when it asked
    for no change. *)
Theorem Reconcile_warns_iff_mutation_failed s :
  let t := effect.trace (Reconcile s) in
  (length (tracing.warnings t) <= length (effect.mutations t))%nat /\
  (tracing.warnings t <> [] <->
   exists obj e,
     (effect.ClientDelete obj ∈ t /\ (client.Delete c obj (fetch s).2).1 = Some e) \/
     (effect.ClientCreate obj ∈ t /\ (client.Create c obj (fetch s).2).1 = Some e)).
Proof.
  intros t. subst t.
  destruct (cases s) as
    [e s1 Hget Hnf|e s1 Hget Hnf Hhub|e s1 cerr s2 Hget Hnf Hhub Hc
    |inst s1 t Hget Hdel|inst s1 derr s2 Hget Hdel Hne Hd|inst s1 Hget Hdel Heq];
    rewrite Hget; cbn [effect.trace fst snd].
  1,2,4,6: split; [cbn; lia|]; split; [done|];
    intros (obj & e' & [[Hin _]|[Hin _]]);
    repeat (apply elem_of_cons in Hin as [Hin|Hin]; [discriminate Hin|]);
    by apply elem_of_nil in Hin.
  - destruct cerr as [ce|]; (split; [cbn; lia|]); split.
    + intros _. exists desired, ce. right. rewrite Hc. split; [|done].
      do 2 apply list_elem_of_further. apply list_elem_of_here.
    + done.
    + done.
    + intros (obj & e' & [[Hin _]|[Hin Hfail]]);
        repeat (apply elem_of_cons in Hin as [Hin|Hin]; [try discriminate Hin|]);
        try (by apply elem_of_nil in Hin).
      simplify_eq. rewrite Hc in Hfail. discriminate Hfail.
  - destruct derr as [de|]; (split; [cbn; lia|]); split.
    + intros _. exists inst, de. left. rewrite Hd. split; [|done].
      do 2 apply list_elem_of_further. apply list_elem_of_here.
    + done.
    + done.
    + intros (obj & e' & [[Hin Hfail]|[Hin _]]);
        repeat (apply elem_of_cons in Hin as [Hin|Hin]; [try discriminate Hin|]);
        try (by apply elem_of_nil in Hin).
      simplify_eq. rewrite Hd in Hfail. discriminate Hfail.
Qed.

End Facts.
End controller_facts.

(** ** More of the event filter *)

Module filter_facts.
Section Facts.
Context {CatalogSourceSpec : Type} `{GoZero CatalogSourceSpec}.
Variable defaultCatalogsources : gmap string (olm.CatalogSource CatalogSourceSpec).

Local Abbreviation pred := (catalogsource.pred defaultCatalogsources).

(** X6: the filter lets every delete event through whose name the registry
    holds and whose final state is known, and every generic event whose name
    the registry holds, and only those; namespace and contents of the object
    play no part. *)
Theorem pred_admits_managed_events :
  (forall e, predicate.DeleteFunc pred e = true <->
     is_Some (defaultCatalogsources !! metav1.GetName (event.DeleteMeta e)) /\
     event.DeleteStateUnknown e = false) /\
  (forall e, predicate.GenericFunc pred e = true <->
     is_Some (defaultCatalogsources !! metav1.GetName (event.GenericMeta e))).
Proof.
  split; intros e.
  - rewrite predicate_facts.DeleteFunc_eq, andb_true_iff, bool_decide_eq_true,
      negb_true_iff. done.
  - rewrite predicate_facts.GenericFunc_eq. apply bool_decide_eq_true.
Qed.

(** X7: a request named after an event that the filter let through is for
    a managed name: the definition [Reconcile] works with is the registry's
    entry under that name, not the zero value it falls back to. *)
Theorem admitted_event_names_a_registry_entry (request : reconcile.Request) :
  (forall e, predicate.UpdateFunc pred e = true ->
     reconcile.Name request = metav1.GetName (event.MetaOld e) ->
     defaultCatalogsources !! reconcile.Name request =
       Some (reconciling.desired defaultCatalogsources request)) /\
  (forall e, predicate.DeleteFunc pred e = true ->
     reconcile.Name request = metav1.GetName (event.DeleteMeta e) ->
     defaultCatalogsources !! reconcile.Name request =
       Some (reconciling.desired defaultCatalogsources request)) /\
  (forall e, predicate.GenericFunc pred e = true ->
     reconcile.Name request = metav1.GetName (event.GenericMeta e) ->
     defaultCatalogsources !! reconcile.Name request =
       Some (reconciling.desired defaultCatalogsources request)).
Proof.
  unfold reconciling.desired, go_index.
  repeat split; intros e Hpass ->.
  - rewrite predicate_facts.UpdateFunc_eq in Hpass.
    apply bool_decide_eq_true in Hpass as [d Hd]. by rewrite Hd.
  - rewrite predicate_facts.DeleteFunc_eq in Hpass.
    apply andb_true_iff in Hpass as [Hpass _].
    apply bool_decide_eq_true in Hpass as [d Hd]. by rewrite Hd.
  - rewrite predicate_facts.GenericFunc_eq in Hpass.
    apply bool_decide_eq_true in Hpass as [d Hd]. by rewrite Hd.
Qed.

End Facts.
End filter_facts.

(** ** Bootstrap of the defaults *)

Module bootstrap_facts.
Section Facts.
Context {error : Type} `{GoError error}.
Variable DefaultName : string.
Variable Sprint : gmap string error -> string.

Local Abbreviation ensureDefaults := (bootstrap.ensureDefaults DefaultName Sprint).

(** X9: [ensureDefaults] ensures the defaults itself unless the cluster has
    the OperatorHub configuration.  With a client at hand, it asks for the
    OperatorHub resource exactly when the config API is available, and it
    calls [EnsureAll] exactly when that API is not available or the request
    failed, with whatever error.  Without a client it does neither. *)
Theorem ensureDefaults_defers_to_OperatorHub (a : bootstrap.Answers error) :
  let steps := (ensureDefaults a).2 in
  (bootstrap.EnsureAll ∈ steps <->
   bootstrap.client_New_err a = None /\
   (bootstrap.IsAPIAvailable a = false \/ bootstrap.Get_OperatorHub_err a <> None)) /\
  (bootstrap.GetOperatorHub DefaultName ∈ steps <->
   bootstrap.client_New_err a = None /\ bootstrap.IsAPIAvailable a = true) /\
  (forall n, bootstrap.GetOperatorHub n ∈ steps -> n = DefaultName).
Proof.
  intros steps. subst steps. unfold bootstrap.ensureDefaults.
  destruct a as [[ne|] [|] [ge|] result]; cbn [bootstrap.client_New_err
    bootstrap.IsAPIAvailable bootstrap.Get_OperatorHub_err
    bootstrap.EnsureAll_result];
    try destruct (bool_decide (size result <> 0%nat)); cbn [fst snd app];
    repeat split;
    repeat match goal with
           | |- _ -> _ => intros ?
           | Hand : _ /\ _ |- _ => destruct Hand
           | Hor : _ \/ _ |- _ => destruct Hor
           | Hin : _ ∈ _ :: _ |- _ => apply elem_of_cons in Hin as [Hin|Hin]
           | Hin : _ ∈ [] |- _ => by apply elem_of_nil in Hin
           end;
    simplify_eq; auto;
    try (repeat constructor; fail).
Qed.

(** X10: [ensureDefaults] returns no error exactly when it got a client and
    either found the OperatorHub resource or [EnsureAll] reported nothing.
    The error of [client.New] is returned as it is and logged; a report of
    [EnsureAll] is returned as a new error that prints it. *)
Theorem ensureDefaults_succeeds_iff (a : bootstrap.Answers error) :
  ((ensureDefaults a).1 = None <->
   bootstrap.client_New_err a = None /\
   ((bootstrap.IsAPIAvailable a = true /\ bootstrap.Get_OperatorHub_err a = None) \/
    bootstrap.EnsureAll_result a = ∅)) /\
  (forall err, (ensureDefaults a).1 = Some (bootstrap.Returned err) <->
     bootstrap.client_New_err a = Some err) /\
  (forall msg, (ensureDefaults a).1 = Some (bootstrap.Formatted msg) ->
     bootstrap.EnsureAll ∈ (ensureDefaults a).2 /\
     bootstrap.EnsureAll_result a <> ∅ /\
     msg = "[defaults] Error ensuring default OperatorSource(s) - " +:+
           Sprint (bootstrap.EnsureAll_result a)).
Proof.
  assert (Hsize : forall result : gmap string error,
            bool_decide (size result <> 0%nat) = false <-> result = ∅).
  { intros result. rewrite bool_decide_eq_false, <- map_size_empty_iff.
    destruct (decide (size result = 0%nat)); intuition. }
  unfold bootstrap.ensureDefaults.
  destruct a as [[ne|] avail [ge|] result]; cbn [bootstrap.client_New_err
    bootstrap.IsAPIAvailable bootstrap.Get_OperatorHub_err
    bootstrap.EnsureAll_result].
  1,2: cbn [fst snd];
       (split; [split; [discriminate | intros [? _]; discriminate]|]);
       (split; [intros err; split; intros [= ->]; reflexivity | discriminate]).
  all: destruct avail;
       try (destruct (bool_decide (size result <> 0%nat)) eqn:Hresult;
            [assert (result <> ∅)
               by (intros Hempty; apply Hsize in Hempty; congruence)
            |apply Hsize in Hresult]);
       cbn [fst snd].
  all: split; [split; [intros Hnil | intros [_ Hwhy]]|].
  all: try discriminate; try done.
  all: try (split; [done|]; tauto).
  all: try (destruct Hwhy as [[? ?]|?]; congruence).
  all: (split; [intros err; split; discriminate|]).
  all: try discriminate.
  all: intros msg' [= <-]; split; [|done];
       apply elem_of_app; right; apply list_elem_of_here.
Qed.

End Facts.
End bootstrap_facts.

(** ** From the flags to the leader election *)

Module startup_facts.
Section Facts.
Context {error : Type} `{GoError error}.

Ltac next_step :=
  match goal with
  | |- context [startup.must ?err _ _ _] =>
      destruct err eqn:?; cbn [startup.must startup.Fatal]
  end.

Ltac scheme_step :=
  match goal with
  | |- context [startup.setupScheme ?h] =>
      unfold startup.setupScheme;
      destruct (startup.apis_AddToScheme_err h) eqn:?;
      [|destruct (startup.olmv1alpha1_AddToScheme_err h) eqn:?;
        [|destruct (startup.v1beta1_AddToScheme_err h) eqn:?;
          [|destruct (startup.corev1_AddToScheme_err h) eqn:?;
            [|destruct (startup.IsAPIAvailable h) eqn:?;
              [destruct (startup.apiconfigv1_AddToScheme_err h) eqn:?|]]]]]
  end.

Ltac run_main h :=
  unfold startup.main;
  destruct (startup.flag_Parse h) as [code|f] eqn:Hparse;
  [|destruct (startup.version f) eqn:?;
    [|repeat next_step; try scheme_step; repeat next_step;
      try (destruct (bool_decide (startup.POD_NAME h = "")) eqn:Hpod;
           [apply bool_decide_eq_true in Hpod; destruct (startup.Hostname h) eqn:?
           |apply bool_decide_eq_false in Hpod])]];
  cbn [fst snd startup.Fatal].

(** X11: [main] reaches the leader election exactly when [flag.Parse]
    returns, the version flag is not set, no step of the set-up fails, every
    registration of [setupScheme] succeeds (the one of the OpenShift config
    types counts only when their API is available), and the process has a
    name: [POD_NAME], or else the host name.  The lock is then the config
    map marketplace-operator-lock in the namespace of the flag, the identity
    is [POD_NAME] when that is not empty and the host name otherwise, and
    the retry period is shorter than the renew deadline, which is shorter
    than the lease. *)
Theorem main_enters_election_iff (h : startup.Host error) :
  ((exists cfg, (startup.main h).1 = startup.RunOrDie cfg) <->
   exists f,
     startup.flag_Parse h = inr f /\
     startup.version f = false /\
     startup.ServePrometheus_err h = None /\
     startup.GetWatchNamespace_err h = None /\
     startup.GetConfig_err h = None /\
     startup.SetConfigAPIAvailability_err h = None /\
     startup.apis_AddToScheme_err h = None /\
     startup.olmv1alpha1_AddToScheme_err h = None /\
     startup.v1beta1_AddToScheme_err h = None /\
     startup.corev1_AddToScheme_err h = None /\
     (startup.IsAPIAvailable h = true -> startup.apiconfigv1_AddToScheme_err h = None) /\
     startup.manager_New_err h = None /\
     startup.NewForConfig_err h = None /\
     (startup.POD_NAME h <> "" \/ exists name, startup.Hostname h = inr name)) /\
  (forall cfg, (startup.main h).1 = startup.RunOrDie cfg ->
     startup.LockName cfg = "marketplace-operator-lock" /\
     (exists f, startup.flag_Parse h = inr f /\
                startup.LockNamespace cfg = startup.leaderElectionNamespace f) /\
     (startup.POD_NAME h <> "" -> startup.Identity cfg = startup.POD_NAME h) /\
     (startup.POD_NAME h = "" -> startup.Hostname h = inr (startup.Identity cfg)) /\
     startup.ReleaseOnCancel cfg = true /\
     0 < startup.RetryPeriod cfg < startup.RenewDeadline cfg /\
     startup.RenewDeadline cfg < startup.LeaseDuration cfg).
Proof.
  run_main h.
  all: split;
    [split;
     [intros [cfg Hcfg]; try discriminate Hcfg
     |intros (f' & Hf' & ? & ? & ? & ? & ? & ? & ? & ? & ? & Hconfig & ? & ? & Hname);
      try discriminate Hf'; try injection Hf' as <-; try congruence]
    |intros cfg Hcfg; try discriminate Hcfg].
  all: try (specialize (Hconfig eq_refl); congruence).
  all: try (destruct Hname as [Hname|[name Hname]]; congruence).
  all: try (eexists; reflexivity).
  all: try (exists f; repeat split; try done; right; eexists; reflexivity).
  all: try (exists f; repeat split; try done; by left).
  all: injection Hcfg as <-; cbn; repeat split; try done; try congruence.
  all: by exists f.
Qed.

(** X12: once [flag.Parse] has returned, [main] ends the process before
    the election with status 0 exactly when the version flag is set, and
    with status 1 exactly when its last log line is a fatal one; it ends it
    with no other status.  When [flag.Parse] ends the process, nothing but
    the three version lines was logged, with which the log starts in every
    case. *)
Theorem main_exit_statuses (h : startup.Host error) :
  (forall f, startup.flag_Parse h = inr f ->
     ((startup.main h).1 = startup.Exit 0 <-> startup.version f = true) /\
     ((startup.main h).1 = startup.Exit 1 <->
      exists msg, last (startup.main h).2 = Some (logrus.FatalLevel, msg)) /\
     (forall code, (startup.main h).1 = startup.Exit code -> code = 0 \/ code = 1)) /\
  (forall code, startup.flag_Parse h = inl code ->
     startup.main h = (startup.Exit code, startup.printVersion h)) /\
  startup.printVersion h `prefix_of` (startup.main h).2.
Proof.
  run_main h; unfold startup.Info.
  all: split; [intros f' Hf'; try discriminate Hf'; try injection Hf' as <-|].
  all: repeat split;
    try (intros [msg Hlast]; rewrite ?last_snoc in Hlast);
    try (intros code' [= <-]);
    try discriminate; try done; try congruence; eauto.
  all: try (rewrite last_snoc; eauto).
  all: try (rewrite <- ?(assoc_L (++)); by apply prefix_app_r).
  all: try (cbn in Hlast; discriminate Hlast).
Qed.

End Facts.
End startup_facts.

(** ** [run] and the callbacks *)

Module leading_facts.
Section Facts.
Context {error : Type} `{GoError error}.

(** X13: started in a process that has neither a manager nor ended, [run]
    enters [mgr.Start] exactly when every step before it succeeds, where
    the status reporter counts only under a cluster operator name; it ends
    the process exactly when one of them fails.  It does not touch the stop
    channel or the leader context, and its first log line says that it
    registers the components. *)
Theorem run_starts_manager_iff (setup : main.Setup error) ctx (p : main.Process) :
  main.mgr_started p = false ->
  main.exited p = false ->
  let ok :=
    (main.clusterOperatorName setup = "" \/ main.NewReporter_err setup = None) /\
    main.PopulateGlobals_err setup = None /\
    main.AddToManager_err setup = None /\
    main.ensureDefaults_err setup = None in
  (main.mgr_started (main.run setup ctx p) = true <-> ok) /\
  (main.exited (main.run setup ctx p) = true <-> ~ ok) /\
  main.stopCh_closed (main.run setup ctx p) = main.stopCh_closed p /\
  main.leaderCtx_cancelled (main.run setup ctx p) = main.leaderCtx_cancelled p /\
  exists more,
    main.output (main.run setup ctx p) =
    main.output p ++ (logrus.InfoLevel, "registering components") :: more.
Proof.
  intros Hfresh Hlive ok. subst ok. unfold main.run.
  destruct setup as [name rep pop add ens]; cbn [main.clusterOperatorName
    main.NewReporter_err main.PopulateGlobals_err main.AddToManager_err
    main.ensureDefaults_err].
  destruct (decide (name = "")) as [->|Hname].
  - rewrite bool_decide_eq_false_2 by (intros Hne; by apply Hne).
    destruct pop, add, ens; cbn; rewrite ?Hfresh, ?Hlive;
      repeat split; try (intros; intuition congruence);
      try (rewrite <- ?(assoc_L (++)); eexists; reflexivity).
  - rewrite bool_decide_eq_true_2 by done.
    destruct rep, pop, add, ens; cbn; rewrite ?Hfresh, ?Hlive;
      repeat split; try (intros; intuition congruence);
      try (rewrite <- ?(assoc_L (++)); eexists; reflexivity).
Qed.

(** X14: the callbacks that follow [OnStartedLeading], in whatever number
    and order, never start or stop the manager, close the stop channel,
    cancel the leader context or end the process; they only add log lines,
    one for each callback but the news that the process itself leads. *)
Theorem callbacks_only_log (id : string) (cbs : list election.Callback)
  (p : main.Process) :
  let q := election.deliver_all id cbs p in
  main.manager_running q = main.manager_running p /\
  main.mgr_started q = main.mgr_started p /\
  main.stopCh_closed q = main.stopCh_closed p /\
  main.leaderCtx_cancelled q = main.leaderCtx_cancelled p /\
  main.exited q = main.exited p /\
  main.output p `prefix_of` main.output q /\
  length (main.output q) =
    (length (main.output p) +
     length (List.filter (election.is_news id) cbs))%nat.
Proof.
  revert p. induction cbs as [|cb cbs IH]; intros p q; subst q.
  - cbn. repeat split; (done || lia).
  - cbn [election.deliver_all foldl].
    specialize (IH (election.deliver id p cb)). cbn zeta in IH.
    unfold election.deliver_all in IH.
    destruct IH as (Hrun & Hstarted & Hstop & Hctx & Hexit & Hout & Hlen).
    rewrite Hrun, Hstarted, Hstop, Hctx, Hexit, Hlen. clear Hrun Hstarted Hstop Hctx Hexit Hlen.
    destruct cb as [|identity];
      cbn [election.deliver List.filter election.is_news] in *.
    + cbn [length]. repeat split; try done.
      * etrans; [|exact Hout]. cbn. by eexists.
      * cbn. rewrite length_app. cbn. lia.
    + unfold main.OnNewLeader in *.
      destruct (bool_decide (identity = id)); cbn [negb length].
      * repeat split; (done || lia).
      * repeat split; try done.
        -- etrans; [|exact Hout]. cbn. by eexists.
        -- cbn. rewrite length_app. cbn. lia.
Qed.

End Facts.
End leading_facts.

(** ** From drift back to the default *)

Module convergence_facts.
Section Facts.
Context {CatalogSourceSpec : Type}.
Context `{EqDecision CatalogSourceSpec} `{GoZero CatalogSourceSpec}.
Context {error : Type} `{GoError error}.
Context {S : Type}.
Variable defaultCatalogsources : gmap string (olm.CatalogSource CatalogSourceSpec).
Variable operatorhubConfig : gmap string bool.
Variable r : catalogsource.ReconcileCatalogSource CatalogSourceSpec error S.
Variable request : reconcile.Request.

Local Abbreviation Reconcile :=
  (catalogsource.Reconcile defaultCatalogsources operatorhubConfig r request).
Local Abbreviation Reconcile_times n :=
  (requeue.Reconcile_times defaultCatalogsources operatorhubConfig n r request).
Local Abbreviation desired := (reconciling.desired defaultCatalogsources request).
Local Abbreviation key := (reconciling.key request).
Local Abbreviation fetch := (reconciling.fetch r request).
Local Abbreviation c := (catalogsource.client r).
Local Abbreviation cases :=
  (catalogsource_facts.Reconcile_outcome defaultCatalogsources operatorhubConfig r request).

(** X15: an edited default is replaced in two invocations and confirmed by
    the third.  When the store deletes the edited object, then reports it
    missing, then creates the default and returns it unchanged, three
    invocations in a row ask for the delete and then the create and for
    nothing else, return a requeue and then twice the empty result, never an
    error, and any number of further invocations asks for no change. *)
Theorem Reconcile_replaces_drifted_default s inst s1 s2 e s3 :
  fetch s = (inr inst, s1) ->
  olm.DeletionTimestamp inst = None ->
  olm.Spec inst <> olm.Spec desired ->
  client.Delete c inst s1 = (None, s2) ->
  fetch s2 = (inl e, s2) ->
  IsNotFound e = true ->
  go_index operatorhubConfig (olm.GetName desired) = false ->
  client.Create c desired s2 = (None, s3) ->
  fetch s3 = (inr desired, s3) ->
  olm.DeletionTimestamp desired = None ->
  effect.mutations (effect.trace (Reconcile_times 3 s)) =
    [effect.ClientDelete inst; effect.ClientCreate desired] /\
  effect.value (Reconcile_times 3 s) =
    [(catalogsource.requeue_after_5s, None); (zero_value, None); (zero_value, None)] /\
  effect.final (Reconcile_times 3 s) = s3 /\
  forall n, effect.mutations (effect.trace (Reconcile_times n s3)) = [] /\
            effect.final (Reconcile_times n s3) = s3.
Proof.
  intros Hget Hdel Hne Hdelete Hget2 Hnf Hhub Hcreate Hget3 Hdel3.
  assert (H1 : Reconcile s =
               ((catalogsource.requeue_after_5s, None), s2,
                [reconciling.entering request; effect.ClientGet key;
                 effect.ClientDelete inst])).
  { destruct (cases s); agree; reflexivity. }
  assert (H2 : Reconcile s2 =
               ((zero_value, None), s3,
                [reconciling.entering request; effect.ClientGet key;
                 effect.ClientCreate desired])).
  { destruct (cases s2); agree; reflexivity. }
  assert (H3 : Reconcile s3 =
               ((zero_value, None), s3,
                [reconciling.entering request; effect.ClientGet key])).
  { destruct (cases s3); agree; reflexivity. }
  assert (Hrest : forall n,
            effect.mutations (effect.trace (Reconcile_times n s3)) = [] /\
            effect.final (Reconcile_times n s3) = s3).
  { induction n as [|n [IHm IHf]]; [done|].
    assert (Hstep :
              Reconcile_times (Datatypes.S n) s3 =
              ((zero_value, None) :: effect.value (Reconcile_times n s3),
               effect.final (Reconcile_times n s3),
               [reconciling.entering request; effect.ClientGet key]
                 ++ effect.trace (Reconcile_times n s3))).
    { cbn [requeue.Reconcile_times]. unfold effect.bind, effect.ret.
      rewrite H3.
      destruct (requeue.Reconcile_times _ _ n r request s3) as [[xs s'] t].
      cbn. by rewrite app_nil_r. }
    rewrite Hstep. cbn [effect.trace effect.final fst snd].
    split; [|exact IHf].
    unfold effect.mutations in *. rewrite List.filter_app. exact IHm. }
  split; [|split; [|split; [|exact Hrest]]];
    cbn [requeue.Reconcile_times]; unfold effect.bind, effect.ret;
    rewrite H1, H2, H3; reflexivity.
Qed.

End Facts.
End convergence_facts.

(** ** The statements above at work *)

Module more_examples.

(** The default is missing and the OperatorHub configuration marks it:
    nothing is created. *)
Lemma Reconcile_not_found_and_marked_example :
  let s := fake.cluster_with [] false in
  let out :=
    catalogsource.Reconcile fake.registry fake_hub.default_marked
      fake.reconciler (fake.request "redhat-operators") s in
  effect.mutations (effect.trace out) = [] /\
  effect.value out = (zero_value, None).
Proof.
  intros s out.
  destruct (controller_facts.Reconcile_not_found_and_marked_is_noop
              fake.registry fake_hub.default_marked fake.reconciler
              (fake.request "redhat-operators") s
              (fake.NotFound "redhat-operators") s)
    as (_ & Hmut & Hvalue & _).
  - reflexivity.
  - reflexivity.
  - reflexivity.
  - split; [exact Hmut | exact Hvalue].
Defined.

(** An object with the name of the default is deleted in another
    namespace: the filter lets the event through, and the request is worked
    on with the definition of the default. *)
Lemma admitted_event_example :
  predicate.DeleteFunc (catalogsource.pred fake.registry)
    (fake.deleted fake_hub.elsewhere false) = true /\
  fake.registry !! reconcile.Name fake_host.request_elsewhere = Some fake.desired.
Proof.
  destruct (filter_facts.admitted_event_names_a_registry_entry
              fake.registry fake_host.request_elsewhere)
    as (_ & Hdelete & _).
  split; [reflexivity|].
  apply (Hdelete (fake.deleted fake_hub.elsewhere false)); reflexivity.
Defined.

(** A fresh process whose collaborators all answer well. *)
Lemma run_example :
  main.mgr_started (main.run fake.setup main.leaderCtx main.started) = true /\
  main.exited (main.run fake.setup main.leaderCtx main.started) = false.
Proof.
  destruct (leading_facts.run_starts_manager_iff fake.setup main.leaderCtx
              main.started eq_refl eq_refl)
    as (Hstarted & _).
  split.
  - apply Hstarted. repeat split; try reflexivity. by left.
  - reflexivity.
Defined.

(** No arguments, no pod name but a host name: the election is entered
    under the host name, for the lock in the default namespace. *)
Lemma main_example :
  (startup.main fake_host.unnamed_pod).1 =
  startup.RunOrDie
    {| startup.LockName := "marketplace-operator-lock";
       startup.LockNamespace := "openshift-marketplace";
       startup.Identity := "marketplace-operator-7d9f";
       startup.ReleaseOnCancel := true;
       startup.LeaseDuration := 90000000000;
       startup.RenewDeadline := 60000000000;
       startup.RetryPeriod := 30000000000 |} /\
  exists cfg, (startup.main fake_host.unnamed_pod).1 = startup.RunOrDie cfg.
Proof.
  split; [reflexivity|].
  apply (startup_facts.main_enters_election_iff fake_host.unnamed_pod).
  exists startup.unset.
  repeat split; try reflexivity. right. eexists. reflexivity.
Defined.

(** The fake store is such a store: from the edited default back to the
    desired one. *)
Lemma Reconcile_replaces_drifted_default_example :
  let s := fake.cluster_with [fake.drifted] false in
  let out :=
    requeue.Reconcile_times fake.registry fake.nothing_disabled 3
      fake.reconciler (fake.request "redhat-operators") s in
  effect.mutations (effect.trace out) =
    [effect.ClientDelete fake.drifted; effect.ClientCreate fake.desired] /\
  effect.final out = fake.cluster_with [fake.desired] false.
Proof.
  intros s out.
  destruct (convergence_facts.Reconcile_replaces_drifted_default
              fake.registry fake.nothing_disabled fake.reconciler
              (fake.request "redhat-operators")
              s fake.drifted s (fake.cluster_with [] false)
              (fake.NotFound "redhat-operators")
              (fake.cluster_with [fake.desired] false))
    as (Hmut & _ & Hfinal & _).
  all: try reflexivity.
  - discriminate.
  - split; [exact Hmut | exact Hfinal].
Defined.

End more_examples.
